(** * Image_editing: the edit client and the application shell

    A shallow embedding of [services/geminiService.ts] (the edit client,
    [editImageWithPrompt]) and of the [App] component (the shell: its React
    state, its event handlers and the [disabled] attributes of its controls),
    with the properties of the repository's specification stated over it.

    JavaScript strings are modelled as [string]; every test the program makes
    on a string (emptiness, a one-character separator, an ASCII prefix, an
    ASCII character class) reads the same on the UTF-8 bytes of the text.
    [string | null] state is [option string].  Promises are modelled by their
    completion ([Resolved] or [Rejected]); an [async] handler is split at its
    [await] into the part that runs at once and the part that runs when the
    awaited promise settles. *)

From Stdlib Require Import String Ascii List Bool Arith Lia.
Import ListNotations.
Open Scope string_scope.
Open Scope bool_scope.

(** ** JavaScript values and control flow used by the program *)

Module Js.

(** A thrown value: an [Error] instance with its [message], or anything
    else ([err instanceof Error] is false). *)
Inductive Thrown : Type :=
| ThrownError (message : string)
| ThrownOther.

(** How a promise (or a [try] body) completes. *)
Inductive Completion (A : Type) : Type :=
| Resolved (value : A)
| Rejected (reason : Thrown).
Arguments Resolved {A} value.
Arguments Rejected {A} reason.

Definition bind {A B} (c : Completion A) (k : A -> Completion B) : Completion B :=
  match c with
  | Resolved a => k a
  | Rejected e => Rejected e
  end.

(** [try { body } catch (error) { throw handler(error) }] *)
Definition try_rethrow {A} (body : Completion A) (handler : Thrown -> Thrown)
  : Completion A :=
  match body with
  | Resolved a => Resolved a
  | Rejected e => Rejected (handler e)
  end.

(** Truthiness of a [string | null | undefined] value: [null], [undefined]
    and the empty string are falsy. *)
Definition truthy (v : option string) : bool :=
  match v with
  | Some s => negb (s =? "")
  | None => false
  end.

(** [s.split(c)] for a one-character separator [c]. *)
Fixpoint split (c : ascii) (s : string) : list string :=
  match s with
  | EmptyString => [""]
  | String a rest =>
      if Ascii.eqb a c then "" :: split c rest
      else match split c rest with
           | [] => [String a ""]
           | seg :: segs => String a seg :: segs
           end
  end.

(** [s.startsWith(p)] *)
Definition startsWith (p s : string) : bool := String.prefix p s.

(** [arr[0] || null] on an array of objects. *)
Definition first {A} (arr : list A) : option A := nth_error arr 0.

End Js.

Import Js.

Declare Scope completion_scope.
Notation "x <- c ;; k" := (bind c (fun x => k))
  (at level 61, c at next level, right associativity) : completion_scope.
Open Scope completion_scope.

(** ** The edit client: services/geminiService.ts *)

Module GeminiService.

(** The request object handed to [ai.models.generateContent].  The first
    part carries the image ([inlineData]), the second the instruction. *)
Record InlineData : Type := mkInlineData {
  data : option string;   (* [undefined] when the caller had none *)
  mimeType : string
}.

Record GenerateContentParameters : Type := mkParams {
  model : string;
  image_part : InlineData;
  text_part : string;
  responseModalities : list string
}.

(** The response, as far as the client reads it:
    [response.candidates[0].content.parts], each part with an optional
    [inlineData]. *)
Record Blob : Type := mkBlob { blob_data : string; blob_mimeType : string }.

Record Part : Type := mkPart {
  inlineData : option Blob;
  text : option string
}.

Record Content : Type := mkContent { parts : list Part }.

Record Candidate : Type := mkCandidate { content : Content }.

Record GenerateContentResponse : Type := mkResponse {
  candidates : list Candidate
}.

(** What the client reads from its surroundings: [process.env.API_KEY] and
    the remote model behind [generateContent]. *)
Record Env : Type := mkEnv {
  API_KEY : option string;
  generateContent : GenerateContentParameters -> Completion GenerateContentResponse
}.

Definition MSG_NO_API_KEY : string := "未设置 API_KEY 环境变量".
Definition MSG_NO_IMAGE : string := "在 Gemini API 的响应中未找到图像数据。".
Definition MSG_API_PREFIX : string := "Gemini API 错误： ".
Definition MSG_UNEXPECTED : string := "与 Gemini API 通信时发生意外错误。".

(** The message of the [TypeError] raised by [response.candidates[0].content]
    when [candidates] is empty (the text V8 gives it). *)
Definition MSG_TYPE_ERROR : string :=
  "Cannot read properties of undefined (reading 'content')".

(** Lines 9-34: the credential check and the request that is sent. *)
Definition build_request (env : Env) (base64ImageData : option string)
    (mimeType prompt : string) : Completion GenerateContentParameters :=
  if negb (truthy (API_KEY env)) then
    Rejected (ThrownError MSG_NO_API_KEY)
  else
    Resolved {| model := "gemini-2.5-flash-image";
                image_part := {| data := base64ImageData; mimeType := mimeType |};
                text_part := prompt;
                responseModalities := ["IMAGE"] |}.

(** Lines 36-40: the first part that has [inlineData]. *)
Fixpoint first_inline (ps : list Part) : option string :=
  match ps with
  | [] => None
  | p :: rest =>
      match inlineData p with
      | Some b => Some (blob_data b)
      | None => first_inline rest
      end
  end.

(** Lines 36-42: the body of the [try] after the [await]. *)
Definition extract_image (response : GenerateContentResponse) : Completion string :=
  match candidates response with
  | [] => Rejected (ThrownError MSG_TYPE_ERROR)
  | c :: _ =>
      match first_inline (parts (content c)) with
      | Some d => Resolved d
      | None => Rejected (ThrownError MSG_NO_IMAGE)
      end
  end.

(** Lines 43-49: the [catch] block. *)
Definition on_catch (error : Thrown) : Thrown :=
  match error with
  | ThrownError message => ThrownError (MSG_API_PREFIX ++ message)
  | ThrownOther => ThrownError MSG_UNEXPECTED
  end.

(** Lines 15-49: the [try]/[catch] around the awaited call, given how the
    remote call completed. *)
Definition after_await (remote : Completion GenerateContentResponse)
  : Completion string :=
  try_rethrow (response <- remote ;; extract_image response) on_catch.

(** One run of the client: the remote calls it made, in order, and how its
    promise completed. *)
Record Run : Type := mkRun {
  remote_calls : list GenerateContentParameters;
  outcome : Completion string
}.

Definition editImageWithPrompt (env : Env) (base64ImageData : option string)
    (mimeType prompt : string) : Run :=
  match build_request env base64ImageData mimeType prompt with
  | Rejected e => {| remote_calls := []; outcome := Rejected e |}
  | Resolved request =>
      {| remote_calls := [request];
         outcome := after_await (generateContent env request) |}
  end.

End GeminiService.

Import GeminiService.

(** ** The application shell: the [App] component *)

Module App.

(** A browser [File], as far as the shell reads it. *)
Record File : Type := mkFile { name : string; type : string }.

(** The React state of [App] (lines 7-13) and the value of the hidden file
    input behind [fileInputRef] ([None] while the ref is not attached). *)
Record State : Type := mkState {
  originalImage : option string;
  editedImage : option string;
  prompt : string;
  isLoading : bool;
  error : option string;
  originalFile : option File;
  isDraggingOver : bool;
  fileInput : option string
}.

Definition initial : State :=
  {| originalImage := None; editedImage := None; prompt := "";
     isLoading := false; error := None; originalFile := None;
     isDraggingOver := false; fileInput := None |}.

Definition setOriginalImage (v : option string) (s : State) : State :=
  mkState v (editedImage s) (prompt s) (isLoading s) (error s)
          (originalFile s) (isDraggingOver s) (fileInput s).
Definition setEditedImage (v : option string) (s : State) : State :=
  mkState (originalImage s) v (prompt s) (isLoading s) (error s)
          (originalFile s) (isDraggingOver s) (fileInput s).
Definition setPrompt (v : string) (s : State) : State :=
  mkState (originalImage s) (editedImage s) v (isLoading s) (error s)
          (originalFile s) (isDraggingOver s) (fileInput s).
Definition setIsLoading (v : bool) (s : State) : State :=
  mkState (originalImage s) (editedImage s) (prompt s) v (error s)
          (originalFile s) (isDraggingOver s) (fileInput s).
Definition setError (v : option string) (s : State) : State :=
  mkState (originalImage s) (editedImage s) (prompt s) (isLoading s) v
          (originalFile s) (isDraggingOver s) (fileInput s).
Definition setOriginalFile (v : option File) (s : State) : State :=
  mkState (originalImage s) (editedImage s) (prompt s) (isLoading s) (error s)
          v (isDraggingOver s) (fileInput s).
Definition setIsDraggingOver (v : bool) (s : State) : State :=
  mkState (originalImage s) (editedImage s) (prompt s) (isLoading s) (error s)
          (originalFile s) v (fileInput s).

(** [if (fileInputRef.current) fileInputRef.current.value = ''] *)
Definition resetFileInput (s : State) : State :=
  mkState (originalImage s) (editedImage s) (prompt s) (isLoading s) (error s)
          (originalFile s) (isDraggingOver s)
          (match fileInput s with Some _ => Some "" | None => None end).

Definition MSG_LOAD_FAILED : string := "加载图像失败。请尝试其他文件。".
Definition MSG_NEED_INPUT : string := "请上传一张图片并输入提示。".
Definition MSG_UNKNOWN : string := "发生未知错误。".
Definition MSG_GENERATE_PREFIX : string := "生成图像失败： ".
Definition DEFAULT_DOWNLOAD : string := "edited-image.png".

(** *** handleImageUpload (lines 16-32)

    [fileToBase64] is imported from [utils/fileUtils]; the handler does
    nothing before awaiting it, so the handler is its continuation, applied
    to the way that promise completed. *)
Definition handleImageUpload_settled (file : File) (loaded : Completion string)
    (s : State) : State :=
  match loaded with
  | Resolved base64 =>
      resetFileInput
        (setError None
          (setEditedImage None
            (setOriginalFile (Some file)
              (setOriginalImage (Some base64) s))))
  | Rejected _ => setError (Some MSG_LOAD_FAILED) s
  end.

(** The three entry paths decide which file, if any, is handed to
    [handleImageUpload]; [if (!file) return] is the [None] case. *)

(** handleFileChange (lines 34-37): [event.target.files?.[0] || null]. *)
Definition handleFileChange (files : option (list File)) : option File :=
  match files with
  | Some fs => first fs
  | None => None
  end.

(** handlePaste (lines 40-45). *)
Definition handlePaste (files : option (list File)) : option File :=
  match (match files with Some fs => first fs | None => None end) with
  | Some file => if startsWith "image/" (type file) then Some file else None
  | None => None
  end.

(** handleDrop (lines 121-135): the state change and the file to load. *)
Definition handleDrop (files : option (list File)) (s : State)
  : State * option File :=
  let s1 := setIsDraggingOver false s in
  if truthy (originalImage s) then (s1, None)
  else
    match files with
    | Some (file :: _) =>
        if startsWith "image/" (type file) then (s1, Some file) else (s1, None)
    | _ => (s1, None)
    end.

(** handleDragOver (lines 107-113), handleDragLeave (lines 115-119). *)
Definition handleDragOver (s : State) : State :=
  if negb (truthy (originalImage s)) then setIsDraggingOver true s else s.

Definition handleDragLeave (s : State) : State := setIsDraggingOver false s.

(** *** handleGenerateClick (lines 54-76) *)

(** A call of the edit client made by the shell. *)
Record ClientCall : Type := mkCall {
  call_data : option string;
  call_mimeType : string;
  call_prompt : string
}.

(** [originalImage.split(',')[1]] *)
Definition base64Data (originalImage : string) : option string :=
  nth_error (split "," originalImage) 1.

(** Lines 55-67, up to the [await]: either the guard fails, or the state is
    reset and the client is called. *)
Definition handleGenerateClick_start (s : State) : State * option (File * ClientCall) :=
  match originalImage s, originalFile s with
  | Some img, Some file =>
      if negb (truthy (Some img)) || negb (truthy (Some (prompt s)))
      then (setError (Some MSG_NEED_INPUT) s, None)
      else
        (setError None (setEditedImage None (setIsLoading true s)),
         Some (file, {| call_data := base64Data img;
                        call_mimeType := type file;
                        call_prompt := prompt s |}))
  | _, _ => (setError (Some MSG_NEED_INPUT) s, None)
  end.

(** Lines 68-75, after the [await]: [file] is the [originalFile] the handler
    closed over when it was called. *)
Definition handleGenerateClick_settled (file : File) (result : Completion string)
    (s : State) : State :=
  let s1 :=
    match result with
    | Resolved resultBase64 =>
        setEditedImage (Some ("data:" ++ type file ++ ";base64," ++ resultBase64)) s
    | Rejected err =>
        let errorMessage :=
          match err with
          | ThrownError message => message
          | ThrownOther => MSG_UNKNOWN
          end in
        setError (Some (MSG_GENERATE_PREFIX ++ errorMessage)) s
    end in
  setIsLoading false s1.

(** *** handleDownloadClick (lines 78-88) *)

(** The class [[\w\d_-]]. *)
Definition is_ext_char (c : ascii) : bool :=
  let n := nat_of_ascii c in
  (((65 <=? n) && (n <=? 90)) || ((97 <=? n) && (n <=? 122))
   || ((48 <=? n) && (n <=? 57)) || (n =? 95) || (n =? 45))%nat.

Fixpoint all_ext_chars (s : string) : bool :=
  match s with
  | EmptyString => true
  | String c rest => is_ext_char c && all_ext_chars rest
  end.

(** Whether [(\.[\w\d_-]+)$] matches when the match starts at the head of
    [s]. *)
Definition ext_matches_here (s : string) : bool :=
  match s with
  | String "." (String c rest) => all_ext_chars (String c rest)
  | _ => false
  end.

(** [name.replace(/(\.[\w\d_-]+)$/i, '_edited$1')]: the leftmost match, if
    there is one, is replaced by ["_edited"] followed by the match. *)
Fixpoint replace_extension (name : string) : string :=
  if ext_matches_here name then "_edited" ++ name
  else match name with
       | EmptyString => EmptyString
       | String c rest => String c (replace_extension rest)
       end.

(** Line 83: [originalFile?.name.replace(...) || 'edited-image.png']. *)
Definition downloadFileName (originalFile : option File) : string :=
  match originalFile with
  | Some file =>
      let replaced := replace_extension (name file) in
      if truthy (Some replaced) then replaced else DEFAULT_DOWNLOAD
  | None => DEFAULT_DOWNLOAD
  end.

(** A download offered to the user: the link's [href] and [download]. *)
Record Download : Type := mkDownload { href : string; download : string }.

Definition handleDownloadClick (s : State) : option Download :=
  match editedImage s with
  | Some edited =>
      if truthy (Some edited)
      then Some {| href := edited; download := downloadFileName (originalFile s) |}
      else None
  | None => None
  end.

(** *** clearImage (lines 90-98) *)
Definition clearImage (s : State) : State :=
  resetFileInput
    (setError None
      (setEditedImage None
        (setOriginalFile None
          (setOriginalImage None s)))).

(** *** The [disabled] attributes of the controls (lines 199, 203, 212) and
    the guard of [handleKeyDown] (line 101) *)
Definition prompt_disabled (s : State) : bool :=
  negb (truthy (originalImage s)) || isLoading s.

Definition generate_disabled (s : State) : bool :=
  negb (truthy (originalImage s)) || negb (truthy (Some (prompt s))) || isLoading s.

Definition download_disabled (s : State) : bool :=
  negb (truthy (editedImage s)) || isLoading s.

Definition keyDown_submits (key : string) (s : State) : bool :=
  (key =? "Enter") && truthy (originalImage s) && truthy (Some (prompt s))
  && negb (isLoading s).

(** *** The handler run to its end

    [handleGenerateClick] with the client's environment [env], when nothing
    else happens between the call and its completion: the final state, the
    client calls made and the remote calls the client made. *)
Record Submission : Type := mkSubmission {
  final : State;
  calls : list ClientCall;
  requests : list GenerateContentParameters
}.

Definition handleGenerateClick (env : Env) (s : State) : Submission :=
  match handleGenerateClick_start s with
  | (s1, None) => {| final := s1; calls := []; requests := [] |}
  | (s1, Some (file, call)) =>
      let run := editImageWithPrompt env (call_data call) (call_mimeType call)
                                     (call_prompt call) in
      {| final := handleGenerateClick_settled file (outcome run) s1;
         calls := [call];
         requests := remote_calls run |}
  end.

End App.

Import App.

(** ** The page as an event-driven machine

    The shell together with what is in flight: the files being read by
    [fileToBase64], the submissions waiting for the edit client, and the logs
    of what the page did (client calls, remote calls, downloads).  Each event
    runs one handler to its end or to its [await]; a settled promise is an
    event of its own, so that other events may come in between. *)

Module Page.

(** A submission suspended at its [await]: the [originalFile] its closure
    holds, and what the client is waiting for ([Rejected] when the client
    threw before calling the remote model). *)
Record PendingEdit : Type := mkPending {
  closure_file : File;
  awaited : Completion GenerateContentParameters
}.

Record Page : Type := mkPage {
  ui : State;
  loads : list File;
  edits : list PendingEdit;
  client_log : list ClientCall;
  remote_log : list GenerateContentParameters;
  downloads : list Download
}.

Definition start : Page :=
  {| ui := initial; loads := []; edits := []; client_log := [];
     remote_log := []; downloads := [] |}.

Definition with_ui (s : State) (p : Page) : Page :=
  mkPage s (loads p) (edits p) (client_log p) (remote_log p) (downloads p).

Inductive Event : Type :=
| FileChange (files : option (list File))
| Paste (files : option (list File))
| Drop (files : option (list File))
| DragOver
| DragLeave
| LoadSettled (n : nat) (loaded : Completion string)
| PromptInput (value : string)
| KeyDown (key : string)
| GenerateClick
| EditSettled (n : nat) (remote : Completion GenerateContentResponse)
| DownloadClick
| ClearClick.

Fixpoint remove_at {A} (n : nat) (l : list A) : list A :=
  match l, n with
  | [], _ => []
  | _ :: rest, 0 => rest
  | x :: rest, S k => x :: remove_at k rest
  end.

(** [handleImageUpload(file)]: nothing happens for [null]; otherwise the
    file is being read. *)
Definition upload (file : option File) (p : Page) : Page :=
  match file with
  | Some f => mkPage (ui p) (loads p ++ [f]) (edits p) (client_log p)
                     (remote_log p) (downloads p)
  | None => p
  end.

(** How the client's promise completes, from what it was waiting for and
    how the remote call completed. *)
Definition client_outcome (awaited : Completion GenerateContentParameters)
    (remote : Completion GenerateContentResponse) : Completion string :=
  match awaited with
  | Rejected e => Rejected e
  | Resolved _ => after_await remote
  end.

(** A call of [handleGenerateClick], up to its [await]. *)
Definition submit (env : Env) (p : Page) : Page :=
  match handleGenerateClick_start (ui p) with
  | (s1, None) => with_ui s1 p
  | (s1, Some (file, call)) =>
      let request := build_request env (call_data call) (call_mimeType call)
                                   (call_prompt call) in
      mkPage s1 (loads p)
             (edits p ++ [{| closure_file := file; awaited := request |}])
             (client_log p ++ [call])
             (remote_log p ++ match request with
                              | Resolved r => [r]
                              | Rejected _ => []
                              end)
             (downloads p)
  end.

Definition step (env : Env) (p : Page) (e : Event) : Page :=
  match e with
  | FileChange files => upload (handleFileChange files) p
  | Paste files => upload (handlePaste files) p
  | Drop files =>
      let (s1, file) := handleDrop files (ui p) in upload file (with_ui s1 p)
  | DragOver => with_ui (handleDragOver (ui p)) p
  | DragLeave => with_ui (handleDragLeave (ui p)) p
  | LoadSettled n loaded =>
      match nth_error (loads p) n with
      | Some file =>
          mkPage (handleImageUpload_settled file loaded (ui p))
                 (remove_at n (loads p)) (edits p) (client_log p)
                 (remote_log p) (downloads p)
      | None => p
      end
  | PromptInput value =>
      if prompt_disabled (ui p) then p else with_ui (setPrompt value (ui p)) p
  | KeyDown key =>
      if keyDown_submits key (ui p) then submit env p else p
  | GenerateClick =>
      if generate_disabled (ui p) then p else submit env p
  | EditSettled n remote =>
      match nth_error (edits p) n with
      | Some pending =>
          mkPage (handleGenerateClick_settled (closure_file pending)
                    (client_outcome (awaited pending) remote) (ui p))
                 (loads p) (remove_at n (edits p)) (client_log p)
                 (remote_log p) (downloads p)
      | None => p
      end
  | DownloadClick =>
      if download_disabled (ui p) then p
      else match handleDownloadClick (ui p) with
           | Some d => mkPage (ui p) (loads p) (edits p) (client_log p)
                              (remote_log p) (downloads p ++ [d])
           | None => p
           end
  | ClearClick =>
      if truthy (originalImage (ui p)) then with_ui (clearImage (ui p)) p else p
  end.

Definition run (env : Env) (p : Page) (events : list Event) : Page :=
  fold_left (step env) events p.

Inductive reachable (env : Env) : Page -> Prop :=
| reachable_start : reachable env start
| reachable_step p e : reachable env p -> reachable env (step env p e).

End Page.

Import Page.

(** ** What the page shows: the JSX of [App] and [ImageContainer] *)

Module Render.

(** The handlers [App] passes down as props. *)
Inductive Action : Type :=
| ActClearImage        (* [clearImage] *)
| ActOpenFilePicker.   (* [() => fileInputRef.current?.click()] *)

(** ImageContainerProps (lines 224-231); an optional prop left out is
    [None]. *)
Record Props : Type := mkProps {
  title : string;
  imageSrc : option string;
  isLoading : option bool;
  onClear : option Action;
  onUploadClick : option Action;
  isDraggingOver : option bool
}.

(** The inside of the square: the image, the upload button with its label,
    or the placeholder text. *)
Inductive Body : Type :=
| Img (src alt : string)
| UploadButton (onClick : Action) (label : string)
| Placeholder (label : string).

Record Panel : Type := mkPanel {
  heading : string;
  clearButton : option Action;
  ring : bool;
  spinner : bool;
  body : Body
}.

Definition LABEL_RELEASE : string := "在此处释放以上传".
Definition LABEL_UPLOAD : string := "点击上传、粘贴或拖拽图片".
Definition LABEL_RESULT : string := "您编辑后的图像将显示在此处".
Definition TITLE_ORIGINAL : string := "原始图像".
Definition TITLE_EDITED : string := "编辑后的图像".

(** ImageContainer (lines 233-271), with the defaults [isLoading = false]
    and [isDraggingOver = false] of its parameter list. *)
Definition ImageContainer (props : Props) : Panel :=
  let loading := match isLoading props with Some b => b | None => false end in
  let dragging := match isDraggingOver props with Some b => b | None => false end in
  {| heading := title props;
     clearButton :=
       match onClear props with
       | Some act => if truthy (imageSrc props) then Some act else None
       | None => None
       end;
     ring := dragging;
     spinner := loading;
     body :=
       match imageSrc props with
       | Some src =>
           if truthy (Some src) then Img src (title props)
           else match onUploadClick props with
                | Some act => UploadButton act (if dragging then LABEL_RELEASE
                                                else LABEL_UPLOAD)
                | None => Placeholder LABEL_RESULT
                end
       | None =>
           match onUploadClick props with
           | Some act => UploadButton act (if dragging then LABEL_RELEASE
                                           else LABEL_UPLOAD)
           | None => Placeholder LABEL_RESULT
           end
       end |}.

(** What [App] returns (lines 138-221), as far as it depends on the state. *)
Record View : Type := mkView {
  alert : option string;
  originalPanel : Panel;
  editedPanel : Panel;
  promptValue : string;
  promptDisabled : bool;
  generateDisabled : bool;
  downloadDisabled : bool
}.

Definition render (s : State) : View :=
  {| alert := if truthy (error s) then error s else None;
     originalPanel :=
       ImageContainer {| title := TITLE_ORIGINAL;
                         imageSrc := originalImage s;
                         isLoading := None;
                         onClear := Some ActClearImage;
                         onUploadClick := Some ActOpenFilePicker;
                         isDraggingOver := Some (App.isDraggingOver s) |};
     editedPanel :=
       ImageContainer {| title := TITLE_EDITED;
                         imageSrc := editedImage s;
                         isLoading := Some (App.isLoading s);
                         onClear := None;
                         onUploadClick := None;
                         isDraggingOver := None |};
     promptValue := prompt s;
     promptDisabled := prompt_disabled s;
     generateDisabled := generate_disabled s;
     downloadDisabled := download_disabled s |}.

End Render.

(** ** Vocabulary of the statements *)

(** A string without a dot. *)
Fixpoint no_dot (s : string) : bool :=
  match s with
  | EmptyString => true
  | String a rest => negb (Ascii.eqb a ".") && no_dot rest
  end.

(** A data URL as the shell builds it. *)
Definition is_data_url (x : string) : Prop :=
  exists mediaType d, x = "data:" ++ mediaType ++ ";base64," ++ d.

(** The three values a remote request carries, and the three a client call
    was made with. *)
Definition request_values (r : GenerateContentParameters)
  : option string * string * string :=
  (data (image_part r), mimeType (image_part r), text_part r).

Definition call_values (c : ClientCall) : option string * string * string :=
  (call_data c, call_mimeType c, call_prompt c).

(** The source image and the file held are set and emptied together. *)
Definition image_and_file_paired (s : State) : Prop :=
  originalImage s = None <-> originalFile s = None.


(** A string without the separator [","]. *)
Fixpoint no_comma (s : string) : bool :=
  match s with
  | EmptyString => true
  | String a rest => negb (Ascii.eqb a ",") && no_comma rest
  end.

(** The file an entry-path event hands to [handleImageUpload], if any. *)
Definition entry_file (e : Event) (s : State) : option File :=
  match e with
  | FileChange files => handleFileChange files
  | Paste files => handlePaste files
  | Drop files => snd (handleDrop files s)
  | _ => None
  end.

(** Whether a submission is suspended at its [await]. *)
Definition in_flight (p : Page) : bool :=
  match edits p with
  | [] => false
  | _ :: _ => true
  end.

(** The link between the loading flag and the suspended submissions that
    every step of the page preserves. *)
Definition loading_tracks_edits (p : Page) : Prop :=
  length (edits p) = if isLoading (ui p) then 1 else 0.

(** While the loading flag is on, no edited image is shown. *)
Definition no_result_while_loading (p : Page) : Prop :=
  isLoading (ui p) = true -> editedImage (ui p) = None.

(** ** Sample data *)

Definition cat_png : File := {| name := "cat.png"; type := "image/png" |}.
Definition cat_url : string := "data:image/png;base64,Q0FU".

Definition image_response (d : string) : GenerateContentResponse :=
  {| candidates :=
       [ {| content :=
              {| parts := [ {| inlineData := None; text := Some "done" |};
                            {| inlineData := Some {| blob_data := d;
                                                     blob_mimeType := "image/png" |};
                               text := None |} ] |} |} ] |}.

Definition text_only_response : GenerateContentResponse :=
  {| candidates :=
       [ {| content := {| parts := [ {| inlineData := None;
                                        text := Some "cannot edit" |} ] |} |} ] |}.

Definition env_serving (d : string) : Env :=
  {| API_KEY := Some "key"; generateContent := fun _ => Resolved (image_response d) |}.

Definition env_failing (message : string) : Env :=
  {| API_KEY := Some "key";
     generateContent := fun _ => Rejected (ThrownError message) |}.

Definition env_no_key : Env :=
  {| API_KEY := None; generateContent := fun _ => Resolved (image_response "SEFU") |}.

(** A loaded image with a prompt typed in. *)
Definition cat_ready : State :=
  setPrompt "add a hat"
    (handleImageUpload_settled cat_png (Resolved cat_url) initial).

(** A session: load [cat.png], type a prompt, submit, receive an image. *)
Definition cat_session : list Event :=
  [ FileChange (Some [cat_png]);
    LoadSettled 0 (Resolved cat_url);
    PromptInput "add a hat";
    GenerateClick;
    EditSettled 0 (Resolved (image_response "SEFU")) ].

(** * Properties *)

(** ** The edit client *)

Section Client.

Variable env : Env.
Variables (imageData : option string) (mime instruction : string).

Lemma build_request_without_key :
  truthy (API_KEY env) = false ->
  build_request env imageData mime instruction
  = Rejected (ThrownError MSG_NO_API_KEY).
Proof. unfold build_request. intros ->. reflexivity. Qed.

Lemma build_request_with_key :
  truthy (API_KEY env) = true ->
  build_request env imageData mime instruction
  = Resolved {| model := "gemini-2.5-flash-image";
                image_part := {| data := imageData; mimeType := mime |};
                text_part := instruction;
                responseModalities := ["IMAGE"] |}.
Proof. unfold build_request. intros ->. reflexivity. Qed.

(** The client never calls the remote model more than once. *)
Lemma at_most_one_remote_call :
  length (remote_calls (editImageWithPrompt env imageData mime instruction)) <= 1.
Proof.
  unfold editImageWithPrompt.
  destruct (build_request env imageData mime instruction); simpl; lia.
Qed.

(** The client's promise completes as [client_outcome] says, from the
    request it built and the completion of the remote call. *)
Lemma outcome_client_outcome :
  outcome (editImageWithPrompt env imageData mime instruction)
  = match build_request env imageData mime instruction with
    | Rejected e => Rejected e
    | Resolved r => client_outcome (Resolved r) (generateContent env r)
    end.
Proof.
  unfold editImageWithPrompt.
  destruct (build_request env imageData mime instruction); reflexivity.
Qed.

(** C4: when the credential [API_KEY] is absent (undefined or empty), the
    client fails with the missing-credential error, whose message is not
    empty, and makes no remote call. *)
Theorem missing_credential_fails_without_remote_call :
  truthy (API_KEY env) = false ->
  editImageWithPrompt env imageData mime instruction
  = {| remote_calls := []; outcome := Rejected (ThrownError MSG_NO_API_KEY) |}
  /\ MSG_NO_API_KEY <> "".
Proof.
  intros Hkey. split.
  - unfold editImageWithPrompt.
    rewrite (build_request_without_key Hkey). reflexivity.
  - discriminate.
Qed.

End Client.

Lemma missing_credential_witness :
  truthy (API_KEY env_no_key) = false
  /\ editImageWithPrompt env_no_key (Some "Q0FU") "image/png" "add a hat"
     = {| remote_calls := []; outcome := Rejected (ThrownError MSG_NO_API_KEY) |}.
Proof.
  split.
  - reflexivity.
  - apply (missing_credential_fails_without_remote_call
             env_no_key (Some "Q0FU") "image/png" "add a hat").
    reflexivity.
Defined.

Lemma first_inline_text_only (texts : list (option string)) :
  first_inline (map (mkPart None) texts) = None.
Proof. induction texts as [|t texts IH]; simpl; auto. Qed.

(** C3: a response whose first candidate has only parts without image data
    makes the client throw the no-image error inside its own [try]; the
    [catch] rewraps it, so the client fails with the message of a remote-call
    failure around the no-image text, exactly as when the remote call itself
    fails with that text, and not with the no-image error. *)
Theorem no_image_error_is_rewrapped
    (c : ascii) (key : string) (texts : list (option string))
    (others : list Candidate)
    (imageData : option string) (mime instruction : string) :
  let response :=
    {| candidates := {| content := {| parts := map (mkPart None) texts |} |} :: others |} in
  let answering := {| API_KEY := Some (String c key);
                      generateContent := fun _ => Resolved response |} in
  let failing := {| API_KEY := Some (String c key);
                    generateContent := fun _ => Rejected (ThrownError MSG_NO_IMAGE) |} in
  outcome (editImageWithPrompt answering imageData mime instruction)
  = Rejected (ThrownError (MSG_API_PREFIX ++ MSG_NO_IMAGE))
  /\ outcome (editImageWithPrompt answering imageData mime instruction)
     = outcome (editImageWithPrompt failing imageData mime instruction)
  /\ outcome (editImageWithPrompt answering imageData mime instruction)
     <> Rejected (ThrownError MSG_NO_IMAGE).
Proof.
  cbv zeta.
  assert (H : forall remote,
             outcome (editImageWithPrompt
                        {| API_KEY := Some (String c key); generateContent := fun _ => remote |}
                        imageData mime instruction)
             = after_await remote) by reflexivity.
  rewrite !H.
  unfold after_await, extract_image; simpl.
  rewrite first_inline_text_only. simpl.
  repeat split. discriminate.
Qed.

(** ** The submit handler *)

Section Submit.

Variable env : Env.

(** When the guard of line 55 passes, the handler resets the state and
    calls the client. *)
Lemma start_guard_passes (s : State) (img : string) (file : File) :
  originalImage s = Some img -> originalFile s = Some file ->
  img <> "" -> prompt s <> "" ->
  handleGenerateClick_start s
  = (setError None (setEditedImage None (setIsLoading true s)),
     Some (file, {| call_data := base64Data img;
                    call_mimeType := type file;
                    call_prompt := prompt s |})).
Proof.
  intros Himg Hfile Hne Hp. unfold handleGenerateClick_start.
  rewrite Himg, Hfile. unfold truthy.
  apply String.eqb_neq in Hne, Hp. rewrite Hne, Hp. reflexivity.
Qed.

(** When the guard of line 55 fails, only the error changes. *)
Lemma start_guard_fails (s : State) :
  truthy (originalImage s) = false \/ originalFile s = None \/ prompt s = "" ->
  handleGenerateClick_start s = (setError (Some MSG_NEED_INPUT) s, None).
Proof.
  unfold handleGenerateClick_start.
  intros [H | [H | H]].
  - destruct (originalImage s) as [img|]; [|reflexivity].
    destruct (originalFile s); [|reflexivity].
    rewrite H. reflexivity.
  - rewrite H. destruct (originalImage s); reflexivity.
  - rewrite H. destruct (originalImage s); [|reflexivity].
    destruct (originalFile s); [|reflexivity].
    unfold truthy at 2. rewrite String.eqb_refl, orb_true_r. reflexivity.
Qed.

(** C1: when the edit call of a submission succeeds with data [D], the
    edited image is ["data:" ++ mediaType ++ ";base64," ++ D], where
    [mediaType] is the type of the loaded file; for a PNG source this is
    ["data:image/png;base64," ++ D]. *)
Theorem successful_edit_sets_data_url (s : State) (img : string) (file : File)
    (D : string) :
  originalImage s = Some img -> originalFile s = Some file ->
  img <> "" -> prompt s <> "" ->
  outcome (editImageWithPrompt env (base64Data img) (type file) (prompt s))
  = Resolved D ->
  editedImage (final (handleGenerateClick env s))
  = Some ("data:" ++ type file ++ ";base64," ++ D)
  /\ (type file = "image/png" ->
      editedImage (final (handleGenerateClick env s))
      = Some ("data:image/png;base64," ++ D)).
Proof.
  intros Himg Hfile Hne Hp Hout.
  assert (E : editedImage (final (handleGenerateClick env s))
              = Some ("data:" ++ type file ++ ";base64," ++ D)).
  { unfold handleGenerateClick.
    rewrite (start_guard_passes _ _ _ Himg Hfile Hne Hp). simpl.
    rewrite Hout. reflexivity. }
  split; [exact E|]. intros Hpng. rewrite E, Hpng. reflexivity.
Qed.

(** C2, as the code has it: when the edit call of a submission fails, the
    error becomes the non-empty message made of the fixed prefix and the
    failure's message, and the edited image is empty, whatever it was
    before the submission; the source image, the file and the prompt are
    kept and the loading flag is off. *)
Theorem failed_edit_sets_error_and_leaves_no_result (s : State) (img : string)
    (file : File) (err : Thrown) :
  originalImage s = Some img -> originalFile s = Some file ->
  img <> "" -> prompt s <> "" ->
  outcome (editImageWithPrompt env (base64Data img) (type file) (prompt s))
  = Rejected err ->
  let s' := final (handleGenerateClick env s) in
  error s' = Some (MSG_GENERATE_PREFIX ++
                   match err with
                   | ThrownError message => message
                   | ThrownOther => MSG_UNKNOWN
                   end)
  /\ truthy (error s') = true
  /\ editedImage s' = None
  /\ originalImage s' = originalImage s
  /\ originalFile s' = originalFile s
  /\ prompt s' = prompt s
  /\ isLoading s' = false.
Proof.
  intros Himg Hfile Hne Hp Hout. cbv zeta.
  unfold handleGenerateClick.
  rewrite (start_guard_passes _ _ _ Himg Hfile Hne Hp). simpl.
  rewrite Hout. simpl. repeat split; reflexivity.
Qed.

(** C10: when the handler is called with no image loaded, no file held or
    an empty prompt, it calls neither the client nor the remote model, it
    sets the fixed message as the error, and it leaves the edited image,
    the loading flag and the rest of the state as they were. *)
Theorem guarded_submit_only_sets_error (s : State) :
  truthy (originalImage s) = false \/ originalFile s = None \/ prompt s = "" ->
  let r := handleGenerateClick env s in
  calls r = [] /\ requests r = []
  /\ final r = setError (Some MSG_NEED_INPUT) s
  /\ error (final r) = Some MSG_NEED_INPUT
  /\ editedImage (final r) = editedImage s
  /\ isLoading (final r) = isLoading s.
Proof.
  intros H. cbv zeta. unfold handleGenerateClick.
  rewrite (start_guard_fails s H). simpl. repeat split; reflexivity.
Qed.

End Submit.

Lemma successful_edit_witness :
  editedImage (final (handleGenerateClick (env_serving "SEFU") cat_ready))
  = Some "data:image/png;base64,SEFU".
Proof.
  apply (successful_edit_sets_data_url (env_serving "SEFU") cat_ready cat_url cat_png "SEFU").
  - reflexivity.
  - reflexivity.
  - discriminate.
  - discriminate.
  - reflexivity.
  - reflexivity.
Defined.

(** C2, as stated, fails: after [cat_session] the edited image is the one the
    first submission produced; a second submission whose remote call fails
    sets the error and leaves the edited image empty, not as it was. *)
Lemma failed_edit_clears_previous_result :
  let s := ui (run (env_serving "SEFU") start cat_session) in
  let r := handleGenerateClick (env_failing "quota exceeded") s in
  editedImage s = Some "data:image/png;base64,SEFU"
  /\ outcome (editImageWithPrompt (env_failing "quota exceeded")
                (Some "Q0FU") "image/png" "add a hat")
     = Rejected (ThrownError (MSG_API_PREFIX ++ "quota exceeded"))
  /\ calls r = [ {| call_data := Some "Q0FU"; call_mimeType := "image/png";
                    call_prompt := "add a hat" |} ]
  /\ truthy (error (final r)) = true
  /\ editedImage (final r) = None
  /\ editedImage (final r) <> editedImage s.
Proof.
  vm_compute. repeat split. discriminate.
Qed.

Lemma failed_edit_witness :
  let s := ui (run (env_serving "SEFU") start cat_session) in
  let s' := final (handleGenerateClick (env_failing "quota exceeded") s) in
  error s' = Some (MSG_GENERATE_PREFIX ++ MSG_API_PREFIX ++ "quota exceeded")
  /\ editedImage s' = None.
Proof.
  cbv zeta.
  destruct (failed_edit_sets_error_and_leaves_no_result
              (env_failing "quota exceeded")
              (ui (run (env_serving "SEFU") start cat_session))
              cat_url cat_png (ThrownError (MSG_API_PREFIX ++ "quota exceeded")))
    as (He & _ & Hi & _).
  - reflexivity.
  - reflexivity.
  - discriminate.
  - discriminate.
  - reflexivity.
  - split; [exact He | exact Hi].
Defined.

Lemma guarded_submit_witness :
  (truthy (originalImage initial) = false \/ originalFile initial = None
   \/ prompt initial = "")
  /\ calls (handleGenerateClick env_no_key initial) = []
  /\ error (final (handleGenerateClick env_no_key initial)) = Some MSG_NEED_INPUT.
Proof.
  split.
  - left. reflexivity.
  - destruct (guarded_submit_only_sets_error env_no_key initial) as (Hc & _ & _ & He & _).
    + left. reflexivity.
    + split; [exact Hc | exact He].
Defined.

(** ** The payload of the edit request *)

Lemma split_no_comma (s : string) :
  no_comma s = true -> split "," s = [s].
Proof.
  induction s as [|a s IH]; simpl; [reflexivity|].
  intros H. apply andb_prop in H as [Ha Hs].
  apply negb_true_iff in Ha. rewrite Ha, (IH Hs). reflexivity.
Qed.

Lemma split_header (header rest : string) :
  no_comma header = true ->
  split "," (header ++ "," ++ rest) = header :: split "," rest.
Proof.
  induction header as [|a h IH]; simpl; [reflexivity|].
  intros H. apply andb_prop in H as [Ha Hh].
  apply negb_true_iff in Ha. rewrite Ha. simpl in IH. rewrite (IH Hh). reflexivity.
Qed.

(** [split(',')[1]] of a data URL is what follows its header. *)
Lemma base64Data_data_url (header payload : string) :
  no_comma header = true -> no_comma payload = true ->
  base64Data (header ++ "," ++ payload) = Some payload.
Proof.
  intros Hh Hp. unfold base64Data.
  rewrite (split_header _ _ Hh), (split_no_comma _ Hp). reflexivity.
Qed.

(** C5: with a loaded file whose data URL is [header ++ "," ++ payload] and a
    non-empty prompt, one submission calls the edit client exactly once, with
    the payload, the file's media type and the prompt; the client makes at
    most one remote call whatever its outcome (no retry), and, when the
    credential is present, exactly one, carrying the same three values. *)
Theorem submit_issues_one_edit_request (env : Env) (s : State) (file : File)
    (header payload : string) :
  originalImage s = Some (header ++ "," ++ payload) ->
  no_comma header = true -> no_comma payload = true ->
  originalFile s = Some file ->
  prompt s <> "" ->
  let r := handleGenerateClick env s in
  calls r = [ {| call_data := Some payload; call_mimeType := type file;
                 call_prompt := prompt s |} ]
  /\ length (requests r) <= 1
  /\ (truthy (API_KEY env) = true ->
      requests r = [ {| model := "gemini-2.5-flash-image";
                        image_part := {| data := Some payload; mimeType := type file |};
                        text_part := prompt s;
                        responseModalities := ["IMAGE"] |} ]).
Proof.
  intros Himg Hh Hp Hfile Hprompt. cbv zeta.
  assert (Hne : header ++ "," ++ payload <> "").
  { destruct header; discriminate. }
  unfold handleGenerateClick.
  rewrite (start_guard_passes _ _ _ Himg Hfile Hne Hprompt).
  rewrite (base64Data_data_url _ _ Hh Hp). simpl.
  split; [reflexivity|]. split.
  - apply at_most_one_remote_call.
  - intros Hkey. unfold editImageWithPrompt.
    rewrite (build_request_with_key _ _ _ _ Hkey). reflexivity.
Qed.

Lemma submit_issues_one_edit_request_witness :
  let r := handleGenerateClick (env_failing "quota exceeded") cat_ready in
  calls r = [ {| call_data := Some "Q0FU"; call_mimeType := "image/png";
                 call_prompt := "add a hat" |} ]
  /\ length (requests r) <= 1.
Proof.
  cbv zeta.
  destruct (submit_issues_one_edit_request (env_failing "quota exceeded") cat_ready
              cat_png "data:image/png;base64" "Q0FU") as (Hc & Hl & _).
  - reflexivity.
  - reflexivity.
  - reflexivity.
  - reflexivity.
  - discriminate.
  - split; [exact Hc | exact Hl].
Defined.

(** ** Clearing and loading *)

(** C7: in every state, [clearImage] empties the source image, the file
    held, the edited image and the error. *)
Theorem clear_empties_source_result_and_error (s : State) :
  originalImage (clearImage s) = None
  /\ originalFile (clearImage s) = None
  /\ editedImage (clearImage s) = None
  /\ error (clearImage s) = None.
Proof. repeat split; reflexivity. Qed.

(** The prompt and the loading flag are not touched by [clearImage]. *)
Lemma clear_keeps_prompt_and_loading (s : State) :
  prompt (clearImage s) = prompt s /\ isLoading (clearImage s) = isLoading s.
Proof. split; reflexivity. Qed.

Lemma nth_error_snoc {A} (l : list A) (x : A) :
  nth_error (l ++ [x]) (length l) = Some x.
Proof. induction l; simpl; auto. Qed.

(** Each entry path hands its file to [handleImageUpload], which starts
    reading it. *)
Lemma entry_starts_load (env : Env) (p : Page) (e : Event) (file : File) :
  entry_file e (ui p) = Some file ->
  loads (step env p e) = (loads p ++ [file])%list.
Proof.
  destruct e; simpl; try discriminate.
  - intros ->. reflexivity.
  - intros ->. reflexivity.
  - destruct (handleDrop files (ui p)) as [s1 f]. simpl. intros ->. reflexivity.
Qed.

(** C8: the first file of a file-picker change, of a paste when its media
    type starts with ["image/"], and of a drop when its media type starts
    with ["image/"] and no image is loaded, is handed to [handleImageUpload]
    and read; once it is read the source image is the new image, the file
    held is the new file, and the edited image and the error are empty,
    whatever they were.  The same holds for any file being read, whatever
    happened since it came in. *)
Theorem loaded_image_replaces_source_and_clears (env : Env) (p q : Page)
    (file : File) (rest : list File) (n : nat) (base64 : string) :
  let loaded (s : State) :=
    originalImage s = Some base64 /\ originalFile s = Some file
    /\ editedImage s = None /\ error s = None in
  let read (e : Event) :=
    step env (step env p e) (LoadSettled (length (loads p)) (Resolved base64)) in
  (loads (step env p (FileChange (Some (file :: rest)))) = (loads p ++ [file])%list
   /\ loaded (ui (read (FileChange (Some (file :: rest))))))
  /\ (startsWith "image/" (type file) = true ->
      loads (step env p (Paste (Some (file :: rest)))) = (loads p ++ [file])%list
      /\ loaded (ui (read (Paste (Some (file :: rest))))))
  /\ (startsWith "image/" (type file) = true ->
      truthy (originalImage (ui p)) = false ->
      loads (step env p (Drop (Some (file :: rest)))) = (loads p ++ [file])%list
      /\ loaded (ui (read (Drop (Some (file :: rest))))))
  /\ (nth_error (loads q) n = Some file ->
      loaded (ui (step env q (LoadSettled n (Resolved base64))))).
Proof.
  cbv zeta.
  assert (Hsettle : forall (r : Page) (k : nat),
             nth_error (loads r) k = Some file ->
             let s' := ui (step env r (LoadSettled k (Resolved base64))) in
             originalImage s' = Some base64 /\ originalFile s' = Some file
             /\ editedImage s' = None /\ error s' = None).
  { intros r k H. cbv zeta. simpl. rewrite H. simpl.
    destruct (fileInput (ui r)); repeat split; reflexivity. }
  assert (Hentry : forall e : Event,
             entry_file e (ui p) = Some file ->
             loads (step env p e) = (loads p ++ [file])%list
             /\ (let s' := ui (step env (step env p e)
                                 (LoadSettled (length (loads p)) (Resolved base64))) in
                 originalImage s' = Some base64 /\ originalFile s' = Some file
                 /\ editedImage s' = None /\ error s' = None)).
  { intros e He. pose proof (entry_starts_load env p e file He) as Hl.
    split; [exact Hl|]. apply Hsettle. rewrite Hl. apply nth_error_snoc. }
  split; [|split; [|split]].
  - apply Hentry. reflexivity.
  - intros Himg. apply Hentry. simpl. unfold handlePaste, first. simpl.
    rewrite Himg. reflexivity.
  - intros Himg Hnone. apply Hentry. simpl. unfold handleDrop.
    rewrite Hnone, Himg. reflexivity.
  - apply Hsettle.
Qed.

Lemma loaded_image_witness :
  let p := mkPage (setError (Some "old error")
                     (setEditedImage (Some "data:image/png;base64,T0xE") initial))
                  [] [] [] [] [] in
  let shows (e : Event) :=
    let s' := ui (step env_no_key (step env_no_key p e)
                    (LoadSettled 0 (Resolved cat_url))) in
    loads (step env_no_key p e) = [cat_png]
    /\ originalImage s' = Some cat_url /\ originalFile s' = Some cat_png
    /\ editedImage s' = None /\ error s' = None in
  startsWith "image/" (type cat_png) = true
  /\ truthy (originalImage (ui p)) = false
  /\ shows (FileChange (Some [cat_png]))
  /\ shows (Paste (Some [cat_png]))
  /\ shows (Drop (Some [cat_png])).
Proof.
  cbv zeta.
  pose (p0 := mkPage (setError (Some "old error")
                        (setEditedImage (Some "data:image/png;base64,T0xE") initial))
                     [] [] [] [] []).
  destruct (loaded_image_replaces_source_and_clears env_no_key p0 p0
              cat_png [] 0 cat_url) as (Hpick & Hpaste & Hdrop & _).
  split; [reflexivity|]. split; [reflexivity|].
  split; [exact Hpick|]. split.
  - apply Hpaste. reflexivity.
  - apply Hdrop; reflexivity.
Defined.

(** ** The download name *)

Lemma all_ext_chars_app_dot (a b : string) :
  all_ext_chars (a ++ "." ++ b) = false.
Proof.
  induction a as [|c a IH]; simpl; [reflexivity|].
  simpl in IH. rewrite IH. apply andb_false_r.
Qed.

Lemma ext_matches_before_last_dot (c : ascii) (base ext : string) :
  ext_matches_here (String c (base ++ "." ++ ext)) = false.
Proof.
  unfold ext_matches_here.
  destruct (Ascii.eqb_spec c ".") as [->|Hc].
  - pose proof (all_ext_chars_app_dot base ext) as H.
    destruct (base ++ "." ++ ext); [reflexivity | exact H].
  - destruct c as [[] [] [] [] [] [] [] []]; try reflexivity.
    exfalso. apply Hc. reflexivity.
Qed.

Lemma replace_extension_eq (name : string) :
  replace_extension name
  = if ext_matches_here name then "_edited" ++ name
    else match name with
         | EmptyString => EmptyString
         | String c rest => String c (replace_extension rest)
         end.
Proof. destruct name; reflexivity. Qed.

(** The match of [(\.[\w\d_-]+)$] is at the last dot. *)
Lemma replace_extension_spec (base ext : string) :
  ext <> "" -> all_ext_chars ext = true ->
  replace_extension (base ++ "." ++ ext) = base ++ "_edited." ++ ext.
Proof.
  intros Hne Hext.
  induction base as [|c base IH].
  - destruct ext as [|x ext]; [contradiction|].
    rewrite replace_extension_eq.
    change (ext_matches_here ("" ++ "." ++ String x ext))
      with (all_ext_chars (String x ext)).
    rewrite Hext. reflexivity.
  - rewrite replace_extension_eq.
    change (String c base ++ "." ++ ext) with (String c (base ++ "." ++ ext)).
    rewrite ext_matches_before_last_dot, IH. reflexivity.
Qed.

(** A name in which no suffix matches is kept as it is. *)
Lemma replace_extension_no_match (name : string) :
  (forall a b, name = a ++ b -> ext_matches_here b = false) ->
  replace_extension name = name.
Proof.
  induction name as [|c name IH]; intros H.
  - reflexivity.
  - rewrite replace_extension_eq, (H "" (String c name) eq_refl).
    rewrite IH; [reflexivity|].
    intros a b ->. apply (H (String c a) b). reflexivity.
Qed.

Lemma truthy_nonempty (x : string) : x <> "" -> truthy (Some x) = true.
Proof. intros H. unfold truthy. apply String.eqb_neq in H. rewrite H. reflexivity. Qed.

(** C9: a download of the edited image offers, for an original file named
    [base ++ "." ++ ext] with [ext] a non-empty run of letters, digits, [_]
    and [-], the name [base ++ "_edited." ++ ext]; and it offers
    ["edited-image.png"] when no file is held or its name is empty. *)
Theorem download_name_inserts_edited (s : State) (edited : string) :
  editedImage s = Some edited -> edited <> "" ->
  (forall file base ext,
      originalFile s = Some file -> name file = base ++ "." ++ ext ->
      ext <> "" -> all_ext_chars ext = true ->
      handleDownloadClick s
      = Some {| href := edited; download := base ++ "_edited." ++ ext |})
  /\ (originalFile s = None
      \/ (exists file, originalFile s = Some file /\ name file = "") ->
      handleDownloadClick s
      = Some {| href := edited; download := "edited-image.png" |}).
Proof.
  intros He Hne. unfold handleDownloadClick. rewrite He, (truthy_nonempty _ Hne).
  split.
  - intros file base ext Hf Hn Hext Hall. rewrite Hf. unfold downloadFileName.
    rewrite Hn, (replace_extension_spec base ext Hext Hall).
    rewrite truthy_nonempty; [reflexivity|].
    destruct base; discriminate.
  - intros [Hf | (file & Hf & Hn)]; rewrite Hf; [reflexivity|].
    unfold downloadFileName. rewrite Hn. reflexivity.
Qed.

Lemma download_name_witness :
  let s := ui (run (env_serving "SEFU") start cat_session) in
  handleDownloadClick s
  = Some {| href := "data:image/png;base64,SEFU"; download := "cat_edited.png" |}
  /\ handleDownloadClick (setOriginalFile None s)
     = Some {| href := "data:image/png;base64,SEFU"; download := "edited-image.png" |}.
Proof.
  cbv zeta. split.
  - apply (proj1 (download_name_inserts_edited
                    (ui (run (env_serving "SEFU") start cat_session))
                    "data:image/png;base64,SEFU"
                    eq_refl ltac:(discriminate)))
      with (file := cat_png) (base := "cat") (ext := "png").
    + reflexivity.
    + reflexivity.
    + discriminate.
    + reflexivity.
  - apply (proj2 (download_name_inserts_edited
                    (setOriginalFile None (ui (run (env_serving "SEFU") start cat_session)))
                    "data:image/png;base64,SEFU"
                    eq_refl ltac:(discriminate))).
    left. reflexivity.
Defined.

(** ** One submission at a time *)

Lemma reachable_run (env : Env) (events : list Event) :
  forall p, reachable env p -> reachable env (run env p events).
Proof.
  induction events as [|e events IH]; intros p Hp; simpl.
  - exact Hp.
  - apply IH. apply reachable_step. exact Hp.
Qed.

Lemma isLoading_upload_settled (file : File) (loaded : Completion string) (s : State) :
  isLoading (handleImageUpload_settled file loaded s) = isLoading s.
Proof. destruct loaded; reflexivity. Qed.

Lemma upload_keeps (file : option File) (p : Page) :
  ui (upload file p) = ui p /\ edits (upload file p) = edits p.
Proof. destruct file; split; reflexivity. Qed.

(** A submission made while the loading flag is off keeps the link. *)
Lemma submit_tracks (env : Env) (p : Page) :
  isLoading (ui p) = false ->
  loading_tracks_edits p -> loading_tracks_edits (submit env p).
Proof.
  unfold loading_tracks_edits, submit, handleGenerateClick_start.
  intros Hl Hinv. rewrite Hl in Hinv.
  destruct (originalImage (ui p)) as [img|]; [destruct (originalFile (ui p)) as [file|]|];
    try (simpl; rewrite Hl; exact Hinv).
  destruct (negb (truthy (Some img)) || negb (truthy (Some (prompt (ui p))))); simpl.
  - rewrite Hl. exact Hinv.
  - rewrite length_app, Hinv. reflexivity.
Qed.

Lemma remove_at_single {A} (l : list A) (n : nat) (x : A) :
  length l = 1 -> nth_error l n = Some x -> remove_at n l = [].
Proof.
  destruct l as [|y [|z l]]; try discriminate.
  destruct n as [|n]; [reflexivity|]. destruct n; discriminate.
Qed.

(** Every step of the page keeps the link between the loading flag and the
    suspended submissions. *)
Lemma step_tracks (env : Env) (p : Page) (e : Event) :
  loading_tracks_edits p -> loading_tracks_edits (step env p e).
Proof.
  intros Hinv. destruct e; simpl.
  - unfold loading_tracks_edits.
    destruct (upload_keeps (handleFileChange files) p) as [-> ->]. exact Hinv.
  - unfold loading_tracks_edits.
    destruct (upload_keeps (handlePaste files) p) as [-> ->]. exact Hinv.
  - destruct (handleDrop files (ui p)) as [s1 file] eqn:E.
    unfold loading_tracks_edits.
    destruct (upload_keeps file (with_ui s1 p)) as [-> ->]. simpl.
    assert (Hs1 : isLoading s1 = isLoading (ui p)).
    { unfold handleDrop in E.
      destruct (truthy (originalImage (ui p))); [inversion E; reflexivity|].
      destruct files as [[|f fs]|]; try (inversion E; reflexivity).
      destruct (startsWith "image/" (type f)); inversion E; reflexivity. }
    rewrite Hs1. exact Hinv.
  - unfold loading_tracks_edits, handleDragOver. simpl.
    destruct (negb (truthy (originalImage (ui p)))); exact Hinv.
  - exact Hinv.
  - destruct (nth_error (loads p) n); [|exact Hinv].
    unfold loading_tracks_edits. simpl.
    rewrite isLoading_upload_settled. exact Hinv.
  - destruct (prompt_disabled (ui p)); exact Hinv.
  - destruct (keyDown_submits key (ui p)) eqn:E; [|exact Hinv].
    apply submit_tracks; [|exact Hinv].
    unfold keyDown_submits in E. apply andb_prop in E as [_ E].
    apply negb_true_iff in E. exact E.
  - destruct (generate_disabled (ui p)) eqn:E; [exact Hinv|].
    apply submit_tracks; [|exact Hinv].
    unfold generate_disabled in E. apply orb_false_elim in E as [_ E]. exact E.
  - destruct (nth_error (edits p) n) as [pending|] eqn:E; [|exact Hinv].
    unfold loading_tracks_edits in *. simpl.
    destruct (isLoading (ui p)).
    + rewrite (remove_at_single _ _ _ Hinv E).
      destruct (client_outcome (awaited pending) remote); reflexivity.
    + destruct (edits p); [destruct n|]; discriminate.
  - destruct (download_disabled (ui p)); [exact Hinv|].
    destruct (handleDownloadClick (ui p)); exact Hinv.
  - destruct (truthy (originalImage (ui p))); exact Hinv.
Qed.

Lemma reachable_tracks (env : Env) (p : Page) :
  reachable env p -> loading_tracks_edits p.
Proof.
  induction 1 as [|p e _ IH].
  - reflexivity.
  - apply step_tracks. exact IH.
Qed.

(** C6: in every reachable state of the page, when no image is loaded, or
    the prompt is empty, or a submission is in flight, the generate button is
    disabled and the Enter key does not submit, so that neither changes the
    page; and at most one submission is in flight. *)
Theorem submit_disabled_and_single_flight (env : Env) (p : Page) :
  reachable env p ->
  (truthy (originalImage (ui p)) = false \/ prompt (ui p) = ""
   \/ in_flight p = true ->
   generate_disabled (ui p) = true
   /\ (forall key, keyDown_submits key (ui p) = false)
   /\ step env p GenerateClick = p
   /\ (forall key, step env p (KeyDown key) = p))
  /\ length (edits p) <= 1.
Proof.
  intros Hr. pose proof (reachable_tracks env p Hr) as Hinv.
  unfold loading_tracks_edits in Hinv. split.
  - intros H.
    assert (Hd : generate_disabled (ui p) = true
                 /\ forall key, keyDown_submits key (ui p) = false).
    { unfold generate_disabled, keyDown_submits.
      destruct H as [H | [H | H]].
      - rewrite H. split; [reflexivity|]. intros key.
        rewrite andb_false_r. reflexivity.
      - assert (Hp : truthy (Some (prompt (ui p))) = false)
          by (rewrite H; reflexivity).
        rewrite Hp. split.
        + destruct (truthy (originalImage (ui p))); reflexivity.
        + intros key.
          destruct (key =? "Enter"), (truthy (originalImage (ui p))); reflexivity.
      - unfold in_flight in H. destruct (edits p); [discriminate|].
        destruct (isLoading (ui p)); [|discriminate].
        split; [apply orb_true_r|].
        intros key. apply andb_false_r. }
    destruct Hd as [Hg Hk]. repeat split; auto.
    + simpl. rewrite Hg. reflexivity.
    + intros key. simpl. rewrite Hk. reflexivity.
  - destruct (isLoading (ui p)); lia.
Qed.

Lemma submit_disabled_witness :
  let p := run env_no_key start
             [ FileChange (Some [cat_png]); LoadSettled 0 (Resolved cat_url);
               PromptInput "add a hat"; GenerateClick ] in
  in_flight p = true
  /\ generate_disabled (ui p) = true
  /\ step env_no_key p GenerateClick = p
  /\ length (edits p) <= 1.
Proof.
  cbv zeta.
  destruct (submit_disabled_and_single_flight env_no_key
              (run env_no_key start
                 [ FileChange (Some [cat_png]); LoadSettled 0 (Resolved cat_url);
                   PromptInput "add a hat"; GenerateClick ])
              (reachable_run _ _ _ (reachable_start env_no_key))) as [H Hlen].
  destruct H as (Hg & _ & Hs & _).
  - right. right. reflexivity.
  - split; [reflexivity|]. split; [exact Hg|]. split; [exact Hs | exact Hlen].
Defined.


(** ** The page and the handler run to its end agree *)

(** A suspended submission that the client resolves with [D] sets the edited
    image from the file its closure holds, whatever happened in between. *)
Lemma page_edit_resolved (env : Env) (p : Page) (n : nat) (pending : PendingEdit)
    (remote : Completion GenerateContentResponse) (D : string) :
  nth_error (edits p) n = Some pending ->
  client_outcome (awaited pending) remote = Resolved D ->
  editedImage (ui (step env p (EditSettled n remote)))
  = Some ("data:" ++ type (closure_file pending) ++ ";base64," ++ D).
Proof.
  intros Hn Hout. simpl. rewrite Hn. simpl. rewrite Hout. reflexivity.
Qed.

(** A click on the enabled button followed at once by the completion of the
    remote call is [handleGenerateClick] with a remote model that completes
    that way. *)
Lemma click_then_settle (key : option string) (p : Page)
    (remote : Completion GenerateContentResponse) :
  let env := {| API_KEY := key; generateContent := fun _ => remote |} in
  edits p = [] ->
  generate_disabled (ui p) = false ->
  let p' := step env (step env p GenerateClick) (EditSettled 0 remote) in
  let r := handleGenerateClick env (ui p) in
  ui p' = final r
  /\ client_log p' = (client_log p ++ calls r)%list
  /\ remote_log p' = (remote_log p ++ requests r)%list
  /\ edits p' = [].
Proof.
  cbv zeta. intros He Hd. simpl. rewrite Hd.
  unfold submit, handleGenerateClick, editImageWithPrompt.
  destruct (handleGenerateClick_start (ui p)) as [s1 [[file call]|]]; simpl.
  - rewrite He. simpl.
    destruct (build_request _ (call_data call) (call_mimeType call) (call_prompt call));
      simpl; repeat split; reflexivity.
  - rewrite He. simpl. rewrite !app_nil_r.
    split; [reflexivity|]. split; [reflexivity|]. split; [reflexivity|exact He].
Qed.

(** The run of the client on a reply that has text and no image. *)
Example text_only_reply :
  editImageWithPrompt
    {| API_KEY := Some "key"; generateContent := fun _ => Resolved text_only_response |}
    (Some "Q0FU") "image/png" "add a hat"
  = {| remote_calls := [ {| model := "gemini-2.5-flash-image";
                            image_part := {| data := Some "Q0FU"; mimeType := "image/png" |};
                            text_part := "add a hat";
                            responseModalities := ["IMAGE"] |} ];
       outcome := Rejected (ThrownError (MSG_API_PREFIX ++ MSG_NO_IMAGE)) |}.
Proof. reflexivity. Qed.

(** A reply without candidates fails on the property access, before the
    search for an image starts. *)
Example no_candidates_reply :
  after_await (Resolved {| candidates := [] |})
  = Rejected (ThrownError (MSG_API_PREFIX ++ MSG_TYPE_ERROR)).
Proof. reflexivity. Qed.


(** ** A failure that arrives after other events *)

Lemma step_no_result_while_loading (env : Env) (p : Page) (e : Event) :
  no_result_while_loading p -> no_result_while_loading (step env p e).
Proof.
  unfold no_result_while_loading. intros Hinv. destruct e; simpl.
  - destruct (upload_keeps (handleFileChange files) p) as [-> _]. exact Hinv.
  - destruct (upload_keeps (handlePaste files) p) as [-> _]. exact Hinv.
  - destruct (handleDrop files (ui p)) as [s1 file] eqn:E.
    destruct (upload_keeps file (with_ui s1 p)) as [-> _]. simpl.
    assert (Hs1 : s1 = setIsDraggingOver false (ui p)).
    { unfold handleDrop in E.
      destruct (truthy (originalImage (ui p))); [inversion E; reflexivity|].
      destruct files as [[|f fs]|]; try (inversion E; reflexivity).
      destruct (startsWith "image/" (type f)); inversion E; reflexivity. }
    rewrite Hs1. exact Hinv.
  - unfold handleDragOver.
    destruct (negb (truthy (originalImage (ui p)))); exact Hinv.
  - exact Hinv.
  - destruct (nth_error (loads p) n); [|exact Hinv]. simpl.
    destruct loaded; [reflexivity | exact Hinv].
  - destruct (prompt_disabled (ui p)); exact Hinv.
  - destruct (keyDown_submits key (ui p)); [|exact Hinv].
    unfold submit, handleGenerateClick_start.
    destruct (originalImage (ui p)) as [img|];
      [destruct (originalFile (ui p)) as [file|]|]; try exact Hinv.
    destruct (negb (truthy (Some img)) || negb (truthy (Some (prompt (ui p)))));
      [exact Hinv | reflexivity].
  - destruct (generate_disabled (ui p)); [exact Hinv|].
    unfold submit, handleGenerateClick_start.
    destruct (originalImage (ui p)) as [img|];
      [destruct (originalFile (ui p)) as [file|]|]; try exact Hinv.
    destruct (negb (truthy (Some img)) || negb (truthy (Some (prompt (ui p)))));
      [exact Hinv | reflexivity].
  - destruct (nth_error (edits p) n) as [pending|]; [|exact Hinv]. simpl.
    destruct (client_outcome (awaited pending) remote); discriminate.
  - destruct (download_disabled (ui p)); [exact Hinv|].
    destruct (handleDownloadClick (ui p)); exact Hinv.
  - destruct (truthy (originalImage (ui p))); [reflexivity | exact Hinv].
Qed.

Lemma reachable_no_result_while_loading (env : Env) (p : Page) :
  reachable env p -> no_result_while_loading p.
Proof.
  induction 1 as [|p e _ IH].
  - discriminate.
  - apply step_no_result_while_loading. exact IH.
Qed.

(** In a reachable page, a suspended submission that the client rejects sets
    the error and finds no edited image to keep: it was cleared when the
    submission started and nothing sets it while the loading flag is on. *)
Lemma page_edit_rejected (env : Env) (p : Page) (n : nat) (pending : PendingEdit)
    (remote : Completion GenerateContentResponse) (err : Thrown) :
  reachable env p ->
  nth_error (edits p) n = Some pending ->
  client_outcome (awaited pending) remote = Rejected err ->
  let s' := ui (step env p (EditSettled n remote)) in
  truthy (error s') = true /\ editedImage s' = None /\ isLoading s' = false.
Proof.
  intros Hr Hn Hout. cbv zeta. simpl. rewrite Hn. simpl. rewrite Hout. simpl.
  split; [reflexivity|]. split; [|reflexivity].
  apply (reachable_no_result_while_loading env p Hr).
  pose proof (reachable_tracks env p Hr) as Ht. unfold loading_tracks_edits in Ht.
  destruct (isLoading (ui p)); [reflexivity|].
  destruct (edits p); [destruct n|]; discriminate.
Qed.

(** * Further properties of the code *)

(** ** When the edit client succeeds, and how it fails *)

Lemma first_inline_found (ps : list Part) (d : string) :
  first_inline ps = Some d <->
  exists pre part post b,
    ps = (pre ++ part :: post)%list
    /\ Forall (fun q => inlineData q = None) pre
    /\ inlineData part = Some b /\ blob_data b = d.
Proof.
  split.
  - induction ps as [|q ps IH]; simpl; [discriminate|].
    destruct (inlineData q) as [b|] eqn:E.
    + intros H. inversion H. exists [], q, ps, b. repeat split; auto.
    + intros H. destruct (IH H) as (pre & part & post & b & -> & Hpre & Hb & Hd).
      exists (q :: pre), part, post, b. repeat split; auto.
  - intros (pre & part & post & b & -> & Hpre & Hb & Hd).
    induction Hpre as [|q pre Hq _ IH]; simpl.
    + rewrite Hb, Hd. reflexivity.
    + rewrite Hq. exact IH.
Qed.

(** X1: The client resolves with [d] exactly when the credential is present, the
    remote call resolves, and [d] is the data of the first part with
    [inlineData] of the first candidate; parts before it without image data
    are skipped, and later parts and other candidates are not looked at. *)
Theorem client_resolves_iff (env : Env) (imageData : option string)
    (mime instruction d : string) :
  outcome (editImageWithPrompt env imageData mime instruction) = Resolved d <->
  truthy (API_KEY env) = true
  /\ exists request response c cs pre part post b,
       build_request env imageData mime instruction = Resolved request
       /\ generateContent env request = Resolved response
       /\ candidates response = c :: cs
       /\ parts (content c) = (pre ++ part :: post)%list
       /\ Forall (fun q => inlineData q = None) pre
       /\ inlineData part = Some b /\ blob_data b = d.
Proof.
  unfold editImageWithPrompt. split.
  - unfold build_request.
    destruct (truthy (API_KEY env)); simpl; [|discriminate].
    unfold after_await, extract_image.
    match goal with |- context [generateContent env ?r] => set (request := r) end.
    destruct (generateContent env request) as [response|e] eqn:Er; simpl;
      [|discriminate].
    destruct (candidates response) as [|c cs] eqn:Ec; simpl; [discriminate|].
    destruct (first_inline (parts (content c))) as [d'|] eqn:Ef; simpl;
      [|discriminate].
    intros H. inversion H. subst d'. split; [reflexivity|].
    apply first_inline_found in Ef as (pre & part & post & b & Hp & Hpre & Hb & Hd).
    exists request, response, c, cs, pre, part, post, b. repeat split; auto.
  - intros (_ & request & response & c & cs & pre & part & post & b
            & Hreq & Hresp & Hc & Hp & Hpre & Hb & Hd).
    rewrite Hreq. simpl. rewrite Hresp. unfold after_await, extract_image. simpl.
    rewrite Hc.
    assert (Hf : first_inline (parts (content c)) = Some d).
    { apply first_inline_found. exists pre, part, post, b. auto. }
    rewrite Hf. reflexivity.
Qed.

Lemma client_resolves_witness :
  outcome (editImageWithPrompt (env_serving "SEFU") (Some "Q0FU") "image/png" "add a hat")
  = Resolved "SEFU".
Proof.
  apply (client_resolves_iff (env_serving "SEFU") (Some "Q0FU") "image/png"
           "add a hat" "SEFU").
  split; [reflexivity|].
  eexists _, (image_response "SEFU"), _, [],
          [ {| inlineData := None; text := Some "done" |} ], _, [],
          {| blob_data := "SEFU"; blob_mimeType := "image/png" |}.
  repeat split; try reflexivity.
  repeat constructor.
Defined.

(** What the client can reject with. *)
Lemma rejection_message_shape (env : Env) (imageData : option string)
    (mime instruction : string) (e : Thrown) :
  outcome (editImageWithPrompt env imageData mime instruction) = Rejected e ->
  exists message,
    e = ThrownError message
    /\ (message = MSG_NO_API_KEY
        \/ (exists inner, message = MSG_API_PREFIX ++ inner)
        \/ message = MSG_UNEXPECTED).
Proof.
  unfold editImageWithPrompt, build_request.
  destruct (truthy (API_KEY env)); simpl.
  - unfold after_await.
    match goal with |- context [generateContent env ?r] => set (request := r) end.
    destruct (generateContent env request) as [response|[inner|]]; simpl.
    + unfold extract_image.
      destruct (candidates response) as [|c cs]; simpl.
      * intros H. inversion H. eexists. split; [reflexivity|].
        right. left. eexists. reflexivity.
      * destruct (first_inline (parts (content c))); simpl; [discriminate|].
        intros H. inversion H. eexists. split; [reflexivity|].
        right. left. eexists. reflexivity.
    + intros H. inversion H. eexists. split; [reflexivity|].
      right. left. eexists. reflexivity.
    + intros H. inversion H. eexists. split; [reflexivity|]. right. right. reflexivity.
  - intros H. inversion H. eexists. split; [reflexivity|]. left. reflexivity.
Qed.



(** ** What the submit handler shows and sends *)

(** X3: After [handleGenerateClick] the error is empty (the edit succeeded), or
    the guard's message, or the fixed prefix before the message of the
    [Error] the client failed with; since the client only fails with [Error]
    objects, the fallback text for other thrown values is never shown. *)
Theorem submit_error_is_never_unknown (env : Env) (s : State) :
  let s' := final (handleGenerateClick env s) in
  (error s' = None
   \/ error s' = Some MSG_NEED_INPUT
   \/ exists message, message <> ""
        /\ error s' = Some (MSG_GENERATE_PREFIX ++ message))
  /\ error s' <> Some (MSG_GENERATE_PREFIX ++ MSG_UNKNOWN).
Proof.
  cbv zeta. unfold handleGenerateClick.
  destruct (handleGenerateClick_start s) as [s1 [[file call]|]] eqn:Es.
  - assert (Hs1 : error s1 = None).
    { unfold handleGenerateClick_start in Es.
      destruct (originalImage s) as [img|]; [destruct (originalFile s)|]; try discriminate.
      destruct (negb (truthy (Some img)) || negb (truthy (Some (prompt s))));
        inversion Es; reflexivity. }
    simpl.
    destruct (outcome (editImageWithPrompt env (call_data call) (call_mimeType call)
                         (call_prompt call))) as [D|e] eqn:Eo.
    + simpl. split; [left; exact Hs1|]. rewrite Hs1. discriminate.
    + destruct (rejection_message_shape env _ _ _ e Eo) as (message & -> & Hshape).
      split.
      * right. right. exists message. split; [|reflexivity].
        destruct Hshape as [-> | [(inner & ->) | ->]]; discriminate.
      * intros H. injection H as H.
        subst message.
        destruct Hshape as [Hm | [(inner & Hm) | Hm]];
          cbv in Hm; discriminate.
  - simpl.
    assert (Hs1 : error s1 = Some MSG_NEED_INPUT).
    { unfold handleGenerateClick_start in Es.
      destruct (originalImage s) as [img|]; [destruct (originalFile s)|];
        try (inversion Es; reflexivity).
      destruct (negb (truthy (Some img)) || negb (truthy (Some (prompt s))));
        inversion Es; reflexivity. }
    split; [right; left; exact Hs1|]. rewrite Hs1. discriminate.
Qed.

Lemma base64Data_no_comma (img : string) :
  no_comma img = true -> base64Data img = None.
Proof. intros H. unfold base64Data. rewrite (split_no_comma _ H). reflexivity. Qed.

(** X4: A loaded image whose text has no comma does not stop the submission:
    the client is called once, with [undefined] as image data, and with the
    credential present that request goes to the remote model. *)
Theorem submit_without_comma_sends_no_data (env : Env) (s : State)
    (img : string) (file : File) :
  originalImage s = Some img -> img <> "" -> no_comma img = true ->
  originalFile s = Some file -> prompt s <> "" ->
  let r := handleGenerateClick env s in
  calls r = [ {| call_data := None; call_mimeType := type file;
                 call_prompt := prompt s |} ]
  /\ (truthy (API_KEY env) = true ->
      map request_values (requests r) = [ (None, type file, prompt s) ]).
Proof.
  intros Himg Hne Hc Hfile Hp. cbv zeta. unfold handleGenerateClick.
  rewrite (start_guard_passes _ _ _ Himg Hfile Hne Hp).
  rewrite (base64Data_no_comma _ Hc). simpl. split; [reflexivity|].
  intros Hkey. unfold editImageWithPrompt.
  rewrite (build_request_with_key _ _ _ _ Hkey). reflexivity.
Qed.

Lemma submit_without_comma_witness :
  let s := setPrompt "add a hat"
             (handleImageUpload_settled cat_png (Resolved "Q0FU") initial) in
  calls (handleGenerateClick (env_serving "SEFU") s)
  = [ {| call_data := None; call_mimeType := "image/png"; call_prompt := "add a hat" |} ].
Proof.
  cbv zeta.
  apply (submit_without_comma_sends_no_data (env_serving "SEFU")
           (setPrompt "add a hat"
              (handleImageUpload_settled cat_png (Resolved "Q0FU") initial))
           "Q0FU" cat_png).
  - reflexivity.
  - discriminate.
  - reflexivity.
  - reflexivity.
  - discriminate.
Defined.

(** X5: Of a loaded image with more than one comma, only what stands between
    the first and the second is sent. *)
Theorem base64Data_stops_at_second_comma (header payload rest : string) :
  no_comma header = true -> no_comma payload = true ->
  base64Data (header ++ "," ++ payload ++ "," ++ rest) = Some payload.
Proof.
  intros Hh Hp. unfold base64Data.
  rewrite (split_header header (payload ++ "," ++ rest) Hh).
  rewrite (split_header payload rest Hp). reflexivity.
Qed.

Lemma base64Data_second_comma_witness :
  base64Data "data:image/png;base64,Q0FU,REVG" = Some "Q0FU".
Proof.
  apply (base64Data_stops_at_second_comma "data:image/png;base64" "Q0FU" "REVG").
  - reflexivity.
  - reflexivity.
Defined.

(** ** Keys, typing and the entry paths *)

(** X6: In every state of the page, pressing Enter in the prompt does what a
    click on the generate button does, and any other key does nothing. *)
Theorem enter_is_generate_click (env : Env) (p : Page) :
  step env p (KeyDown "Enter") = step env p GenerateClick
  /\ (forall key, key <> "Enter" -> step env p (KeyDown key) = p).
Proof.
  split.
  - simpl. unfold keyDown_submits, generate_disabled.
    change ("Enter" =? "Enter") with true.
    destruct (truthy (originalImage (ui p))), (truthy (Some (prompt (ui p)))),
             (isLoading (ui p)); reflexivity.
  - intros key Hk. simpl. unfold keyDown_submits.
    apply String.eqb_neq in Hk. rewrite Hk. reflexivity.
Qed.

Lemma enter_is_generate_click_witness :
  "a" <> "Enter" /\ step env_no_key start (KeyDown "a") = start.
Proof.
  split.
  - discriminate.
  - apply (proj2 (enter_is_generate_click env_no_key start)). discriminate.
Defined.

Lemma prompt_upload_settled (file : File) (loaded : Completion string) (s : State) :
  prompt (handleImageUpload_settled file loaded s) = prompt s.
Proof. destruct loaded; reflexivity. Qed.

Lemma prompt_submit (env : Env) (p : Page) :
  prompt (ui (submit env p)) = prompt (ui p).
Proof.
  unfold submit, handleGenerateClick_start.
  destruct (originalImage (ui p)) as [img|];
    [destruct (originalFile (ui p)) as [file|]|]; try reflexivity.
  destruct (negb (truthy (Some img)) || negb (truthy (Some (prompt (ui p)))));
    reflexivity.
Qed.

(** X7: The prompt is changed by typing only, and typing is ignored while the
    input is disabled (no image loaded, or a submission in flight): loading,
    clearing, submitting, a result and a failure all keep the prompt. *)
Theorem only_typing_changes_prompt (env : Env) (p : Page) (e : Event) :
  prompt (ui (step env p e))
  = match e with
    | PromptInput value => if prompt_disabled (ui p) then prompt (ui p) else value
    | _ => prompt (ui p)
    end.
Proof.
  destruct e; simpl.
  - destruct (upload_keeps (handleFileChange files) p) as [-> _]. reflexivity.
  - destruct (upload_keeps (handlePaste files) p) as [-> _]. reflexivity.
  - destruct (handleDrop files (ui p)) as [s1 file] eqn:E.
    destruct (upload_keeps file (with_ui s1 p)) as [-> _]. simpl.
    unfold handleDrop in E.
    destruct (truthy (originalImage (ui p))); [inversion E; reflexivity|].
    destruct files as [[|f fs]|]; try (inversion E; reflexivity).
    destruct (startsWith "image/" (type f)); inversion E; reflexivity.
  - unfold handleDragOver.
    destruct (negb (truthy (originalImage (ui p)))); reflexivity.
  - reflexivity.
  - destruct (nth_error (loads p) n); [|reflexivity]. simpl.
    apply prompt_upload_settled.
  - destruct (prompt_disabled (ui p)); reflexivity.
  - destruct (keyDown_submits key (ui p)); [apply prompt_submit | reflexivity].
  - destruct (generate_disabled (ui p)); [reflexivity | apply prompt_submit].
  - destruct (nth_error (edits p) n) as [pending|]; [|reflexivity]. simpl.
    destruct (client_outcome (awaited pending) remote); reflexivity.
  - destruct (download_disabled (ui p)); [reflexivity|].
    destruct (handleDownloadClick (ui p)); reflexivity.
  - destruct (truthy (originalImage (ui p))); reflexivity.
Qed.

(** X8: A file that comes in by paste or by drop is the first file of the event
    and has a media type that starts with ["image/"]; a drop is taken only
    while no image is loaded.  The file picker hands on the first file
    whatever its type. *)
Theorem entry_paths_filter (files : list File) (s : State) (file : File) :
  (entry_file (Paste (Some files)) s = Some file ->
   first files = Some file /\ startsWith "image/" (type file) = true)
  /\ (entry_file (Drop (Some files)) s = Some file ->
      first files = Some file /\ startsWith "image/" (type file) = true
      /\ truthy (originalImage s) = false)
  /\ (first files = Some file ->
      entry_file (FileChange (Some files)) s = Some file).
Proof.
  split; [|split].
  - intros H. simpl in H. unfold handlePaste in H.
    destruct (first files) as [f|]; [|discriminate].
    destruct (startsWith "image/" (type f)) eqn:E; inversion H. subst.
    split; [reflexivity | exact E].
  - intros H. simpl in H. unfold handleDrop in H.
    destruct (truthy (originalImage s)); [discriminate|].
    destruct files as [|f fs]; [discriminate|].
    destruct (startsWith "image/" (type f)) eqn:E; inversion H. subst.
    split; [reflexivity|]. split; [exact E | reflexivity].
  - intros H. exact H.
Qed.

Lemma entry_paths_filter_witness :
  entry_file (Drop (Some [cat_png])) initial = Some cat_png
  /\ startsWith "image/" (type cat_png) = true.
Proof.
  split.
  - reflexivity.
  - apply (proj1 (proj2 (entry_paths_filter [cat_png] initial cat_png))).
    reflexivity.
Defined.

(** ** What every step of the page does to the state and to the logs *)

Lemma keyDown_submits_enabled (key : string) (s : State) :
  keyDown_submits key s = true -> generate_disabled s = false.
Proof.
  unfold keyDown_submits, generate_disabled.
  destruct (key =? "Enter"), (truthy (originalImage s)),
           (truthy (Some (prompt s))), (isLoading s); simpl; auto.
Qed.

Lemma ui_submit (env : Env) (p : Page) :
  ui (submit env p) = fst (handleGenerateClick_start (ui p)).
Proof.
  unfold submit.
  destruct (handleGenerateClick_start (ui p)) as [s1 [[file call]|]]; reflexivity.
Qed.

(** The state after a step is the state before, or the result of one of the
    handlers applied to it. *)
Lemma step_ui (env : Env) (p : Page) (e : Event) :
  ui (step env p e) = ui p
  \/ (exists b, ui (step env p e) = setIsDraggingOver b (ui p))
  \/ (exists file loaded,
        ui (step env p e) = handleImageUpload_settled file loaded (ui p))
  \/ (exists value, prompt_disabled (ui p) = false
        /\ ui (step env p e) = setPrompt value (ui p))
  \/ (generate_disabled (ui p) = false
      /\ ui (step env p e) = fst (handleGenerateClick_start (ui p)))
  \/ (exists pending result,
        In pending (edits p)
        /\ ui (step env p e)
           = handleGenerateClick_settled (closure_file pending) result (ui p))
  \/ (truthy (originalImage (ui p)) = true
      /\ ui (step env p e) = clearImage (ui p)).
Proof.
  destruct e; simpl.
  - left. apply upload_keeps.
  - left. apply upload_keeps.
  - right. left. exists false.
    destruct (handleDrop files (ui p)) as [s1 file] eqn:E.
    destruct (upload_keeps file (with_ui s1 p)) as [-> _]. simpl.
    unfold handleDrop in E.
    destruct (truthy (originalImage (ui p))); [inversion E; reflexivity|].
    destruct files as [[|f fs]|]; try (inversion E; reflexivity).
    destruct (startsWith "image/" (type f)); inversion E; reflexivity.
  - unfold handleDragOver.
    destruct (negb (truthy (originalImage (ui p)))); [|left; reflexivity].
    right. left. exists true. reflexivity.
  - right. left. exists false. reflexivity.
  - destruct (nth_error (loads p) n) as [file|]; [|left; reflexivity].
    right. right. left. exists file, loaded. reflexivity.
  - destruct (prompt_disabled (ui p)) eqn:E; [left; reflexivity|].
    right. right. right. left. exists value. split; reflexivity.
  - destruct (keyDown_submits key (ui p)) eqn:E; [|left; reflexivity].
    right. right. right. right. left.
    split; [exact (keyDown_submits_enabled _ _ E) | apply ui_submit].
  - destruct (generate_disabled (ui p)) eqn:E; [left; reflexivity|].
    right. right. right. right. left. split; [reflexivity | apply ui_submit].
  - destruct (nth_error (edits p) n) as [pending|] eqn:E; [|left; reflexivity].
    right. right. right. right. right. left.
    exists pending, (client_outcome (awaited pending) remote).
    split; [exact (nth_error_In _ _ E) | reflexivity].
  - left. destruct (download_disabled (ui p)); [reflexivity|].
    destruct (handleDownloadClick (ui p)); reflexivity.
  - destruct (truthy (originalImage (ui p))) eqn:E; [|left; reflexivity].
    right. right. right. right. right. right. split; reflexivity.
Qed.

(** A step leaves the logs of client calls and remote calls as they are, or
    it is a submission: one client call with a non-empty prompt is added,
    and the remote call the client makes for it, if it makes one. *)
Lemma step_logs (env : Env) (p : Page) (e : Event) :
  (client_log (step env p e) = client_log p
   /\ remote_log (step env p e) = remote_log p)
  \/ exists call,
       call_prompt call <> ""
       /\ client_log (step env p e) = (client_log p ++ [call])%list
       /\ remote_log (step env p e)
          = (remote_log p
             ++ match build_request env (call_data call) (call_mimeType call)
                                    (call_prompt call) with
                | Resolved r => [r]
                | Rejected _ => []
                end)%list.
Proof.
  assert (Hsubmit : forall q : Page,
    (client_log (submit env q) = client_log q
     /\ remote_log (submit env q) = remote_log q)
    \/ exists call,
         call_prompt call <> ""
         /\ client_log (submit env q) = (client_log q ++ [call])%list
         /\ remote_log (submit env q)
            = (remote_log q
               ++ match build_request env (call_data call) (call_mimeType call)
                                      (call_prompt call) with
                  | Resolved r => [r]
                  | Rejected _ => []
                  end)%list).
  { intros q. unfold submit, handleGenerateClick_start.
    destruct (originalImage (ui q)) as [img|];
      [destruct (originalFile (ui q)) as [file|]|];
      try (left; split; reflexivity).
    destruct (truthy (Some (prompt (ui q)))) eqn:Ep.
    - destruct (negb (truthy (Some img))); simpl; [left; split; reflexivity|].
      right. eexists. split; [|split; reflexivity]. simpl.
      unfold truthy in Ep. apply negb_true_iff, String.eqb_neq in Ep. exact Ep.
    - rewrite orb_true_r. left. split; reflexivity. }
  destruct e; simpl; try (left; split; reflexivity).
  - left. destruct (handleFileChange files); split; reflexivity.
  - left. destruct (handlePaste files); split; reflexivity.
  - left. destruct (handleDrop files (ui p)) as [s1 [f|]]; split; reflexivity.
  - left. destruct (nth_error (loads p) n); split; reflexivity.
  - left. destruct (prompt_disabled (ui p)); split; reflexivity.
  - destruct (keyDown_submits key (ui p)); [apply Hsubmit | left; split; reflexivity].
  - destruct (generate_disabled (ui p)); [left; split; reflexivity | apply Hsubmit].
  - left. destruct (nth_error (edits p) n); split; reflexivity.
  - left. destruct (download_disabled (ui p)); [split; reflexivity|].
    destruct (handleDownloadClick (ui p)); split; reflexivity.
  - left. destruct (truthy (originalImage (ui p))); split; reflexivity.
Qed.

(** A step leaves the downloads as they are, or adds the one the enabled
    download button offers. *)
Lemma step_downloads (env : Env) (p : Page) (e : Event) :
  downloads (step env p e) = downloads p
  \/ exists d, handleDownloadClick (ui p) = Some d
       /\ download_disabled (ui p) = false
       /\ downloads (step env p e) = (downloads p ++ [d])%list.
Proof.
  destruct e; simpl; try (left; reflexivity).
  - left. destruct (handleFileChange files); reflexivity.
  - left. destruct (handlePaste files); reflexivity.
  - left. destruct (handleDrop files (ui p)) as [s1 [f|]]; reflexivity.
  - left. destruct (nth_error (loads p) n); reflexivity.
  - left. destruct (prompt_disabled (ui p)); reflexivity.
  - left. destruct (keyDown_submits key (ui p)); [|reflexivity].
    unfold submit.
    destruct (handleGenerateClick_start (ui p)) as [s1 [[file call]|]]; reflexivity.
  - left. destruct (generate_disabled (ui p)); [reflexivity|].
    unfold submit.
    destruct (handleGenerateClick_start (ui p)) as [s1 [[file call]|]]; reflexivity.
  - left. destruct (nth_error (edits p) n); reflexivity.
  - destruct (download_disabled (ui p)) eqn:E; [left; reflexivity|].
    destruct (handleDownloadClick (ui p)) as [d|] eqn:Ed; [|left; reflexivity].
    right. exists d. repeat split; reflexivity.
  - left. destruct (truthy (originalImage (ui p))); reflexivity.
Qed.

(** ** Invariants of the page *)

Lemma start_keeps_image_and_file (s : State) :
  originalImage (fst (handleGenerateClick_start s)) = originalImage s
  /\ originalFile (fst (handleGenerateClick_start s)) = originalFile s.
Proof.
  unfold handleGenerateClick_start.
  destruct (originalImage s) as [img|] eqn:Ei;
    [destruct (originalFile s) as [file|] eqn:Ef|];
    [destruct (negb (truthy (Some img)) || negb (truthy (Some (prompt s)))) | | ];
    simpl; rewrite ?Ei, ?Ef; auto.
Qed.

Lemma settled_keeps_image_and_file (file : File) (result : Completion string)
    (s : State) :
  originalImage (handleGenerateClick_settled file result s) = originalImage s
  /\ originalFile (handleGenerateClick_settled file result s) = originalFile s.
Proof. destruct result; split; reflexivity. Qed.

Lemma step_paired (env : Env) (p : Page) (e : Event) :
  image_and_file_paired (ui p) -> image_and_file_paired (ui (step env p e)).
Proof.
  unfold image_and_file_paired. intros Hinv.
  destruct (step_ui env p e)
    as [-> | [(b & ->) | [(file & loaded & ->) | [(value & _ & ->)
       | [(_ & ->) | [(pending & result & _ & ->) | (_ & ->)]]]]]].
  - exact Hinv.
  - exact Hinv.
  - destruct loaded; simpl; [split; discriminate | exact Hinv].
  - exact Hinv.
  - destruct (start_keeps_image_and_file (ui p)) as [-> ->]. exact Hinv.
  - destruct (settled_keeps_image_and_file (closure_file pending) result (ui p))
      as [-> ->]. exact Hinv.
  - split; reflexivity.
Qed.

Lemma reachable_paired (env : Env) (p : Page) :
  reachable env p -> image_and_file_paired (ui p).
Proof.
  induction 1 as [|p e _ IH].
  - split; reflexivity.
  - apply step_paired. exact IH.
Qed.

(** X9: In every reachable state the source image and the file held are both
    set or both empty: with an image shown there is a file whose name and
    media type the download and the submission can use. *)
Theorem image_and_file_stay_paired (env : Env) (p : Page) :
  reachable env p ->
  image_and_file_paired (ui p)
  /\ (forall img, originalImage (ui p) = Some img ->
      exists file, originalFile (ui p) = Some file).
Proof.
  intros Hr. pose proof (reachable_paired env p Hr) as Hp.
  split; [exact Hp|].
  intros img Hi. destruct (originalFile (ui p)) as [file|] eqn:Ef.
  - exists file. reflexivity.
  - destruct Hp as [_ Hp]. rewrite (Hp Ef) in Hi. discriminate.
Qed.

Lemma image_and_file_paired_witness :
  image_and_file_paired (ui (run (env_serving "SEFU") start cat_session)).
Proof.
  apply (proj1 (image_and_file_stay_paired (env_serving "SEFU") _
                  (reachable_run _ _ _ (reachable_start _)))).
Defined.

(** With the button enabled and image and file paired, the guard of the
    submit handler passes. *)
Lemma enabled_start_passes (s : State) :
  image_and_file_paired s -> generate_disabled s = false ->
  exists img file,
    originalImage s = Some img /\ originalFile s = Some file
    /\ handleGenerateClick_start s
       = (setError None (setEditedImage None (setIsLoading true s)),
          Some (file, {| call_data := base64Data img;
                         call_mimeType := type file;
                         call_prompt := prompt s |})).
Proof.
  unfold generate_disabled. intros [Hp1 Hp2] Hd.
  apply orb_false_elim in Hd as [Hd _]. apply orb_false_elim in Hd as [Hi Hp].
  apply negb_false_iff in Hi, Hp.
  destruct (originalImage s) as [img|] eqn:Ei; [|discriminate].
  destruct (originalFile s) as [file|] eqn:Ef.
  - exists img, file. split; [reflexivity|]. split; [reflexivity|].
    unfold handleGenerateClick_start. rewrite Ei, Ef, Hi, Hp. reflexivity.
  - specialize (Hp2 eq_refl). discriminate.
Qed.

(** X10: In every reachable state the guard's message is not the error shown,
    and a click on the enabled button starts a submission: the controls
    keep the handler away from the states its guard rejects. *)
Theorem guard_message_never_shown (env : Env) (p : Page) :
  reachable env p ->
  error (ui p) <> Some MSG_NEED_INPUT
  /\ (generate_disabled (ui p) = false ->
      exists file call,
        snd (handleGenerateClick_start (ui p)) = Some (file, call)
        /\ client_log (step env p GenerateClick) = (client_log p ++ [call])%list).
Proof.
  intros Hr. split.
  - induction Hr as [|p e Hr IH]; [discriminate|].
    pose proof (reachable_paired env p Hr) as Hpair.
    destruct (step_ui env p e)
      as [-> | [(b & ->) | [(file & loaded & ->) | [(value & _ & ->)
         | [(Hd & ->) | [(pending & result & _ & ->) | (_ & ->)]]]]]].
    + exact IH.
    + exact IH.
    + destruct loaded; simpl; discriminate.
    + exact IH.
    + destruct (enabled_start_passes (ui p) Hpair Hd) as (img & file & _ & _ & ->).
      discriminate.
    + destruct result as [D|[message|]]; simpl; [exact IH | discriminate | discriminate].
    + discriminate.
  - intros Hd.
    pose proof (reachable_paired env p Hr) as Hpair.
    destruct (enabled_start_passes (ui p) Hpair Hd) as (img & file & _ & _ & Hs).
    eexists file, _. simpl. rewrite Hd. unfold submit. rewrite Hs. simpl.
    split; reflexivity.
Qed.

Lemma guard_message_never_shown_witness :
  error (ui (run (env_failing "quota exceeded") start
               (cat_session ++ [GenerateClick; KeyDown "Enter"])%list))
  <> Some MSG_NEED_INPUT.
Proof.
  apply (guard_message_never_shown (env_failing "quota exceeded")).
  apply reachable_run. apply reachable_start.
Defined.

(** X11: In every reachable state no client call was made with an empty prompt;
    without the credential no remote call was made at all, and with it the
    remote calls carry, one for one and in order, the image data, media type
    and prompt of the client calls. *)
Theorem remote_log_mirrors_client_log (env : Env) (p : Page) :
  reachable env p ->
  Forall (fun call => call_prompt call <> "") (client_log p)
  /\ (truthy (API_KEY env) = false -> remote_log p = [])
  /\ (truthy (API_KEY env) = true ->
      map request_values (remote_log p) = map call_values (client_log p)).
Proof.
  induction 1 as [|p e _ (IHp & IHn & IHk)].
  - repeat split; constructor.
  - destruct (step_logs env p e) as [[-> ->] | (call & Hp & -> & ->)].
    + repeat split; assumption.
    + split; [|split].
      * apply Forall_app. split; [exact IHp | constructor; [exact Hp | constructor]].
      * intros Hkey. rewrite (build_request_without_key _ _ _ _ Hkey).
        rewrite app_nil_r. exact (IHn Hkey).
      * intros Hkey. rewrite (build_request_with_key _ _ _ _ Hkey).
        rewrite !map_app, (IHk Hkey). reflexivity.
Qed.

Lemma remote_log_witness :
  remote_log (run env_no_key start cat_session) = [].
Proof.
  apply (remote_log_mirrors_client_log env_no_key).
  - apply reachable_run. apply reachable_start.
  - reflexivity.
Defined.

(** ** The edited image and the downloads *)

Lemma is_data_url_nonempty (x : string) : is_data_url x -> x <> "".
Proof. intros (t & d & ->). discriminate. Qed.

Lemma start_editedImage (s : State) :
  editedImage (fst (handleGenerateClick_start s)) = None
  \/ editedImage (fst (handleGenerateClick_start s)) = editedImage s.
Proof.
  unfold handleGenerateClick_start.
  destruct (originalImage s) as [img|];
    [destruct (originalFile s) as [file|]|];
    [destruct (negb (truthy (Some img)) || negb (truthy (Some (prompt s)))) | | ];
    simpl; auto.
Qed.

Lemma step_edited_is_data_url (env : Env) (p : Page) (e : Event) :
  (forall x, editedImage (ui p) = Some x -> is_data_url x) ->
  forall x, editedImage (ui (step env p e)) = Some x -> is_data_url x.
Proof.
  intros Hinv x.
  destruct (step_ui env p e)
    as [-> | [(b & ->) | [(file & loaded & ->) | [(value & _ & ->)
       | [(_ & ->) | [(pending & result & _ & ->) | (_ & ->)]]]]]].
  - apply Hinv.
  - apply Hinv.
  - destruct loaded; simpl; [discriminate | apply Hinv].
  - apply Hinv.
  - destruct (start_editedImage (ui p)) as [-> | ->]; [discriminate | apply Hinv].
  - destruct result as [D|err]; simpl; [|apply Hinv].
    intros H. inversion H. exists (type (closure_file pending)), D. reflexivity.
  - discriminate.
Qed.

Lemma download_click_href (s : State) (d : Download) :
  handleDownloadClick s = Some d ->
  editedImage s = Some (href d) /\ download d = downloadFileName (originalFile s).
Proof.
  unfold handleDownloadClick.
  destruct (editedImage s) as [edited|]; [|discriminate].
  destruct (truthy (Some edited)); [|discriminate].
  intros H. inversion H. split; reflexivity.
Qed.

Lemma reachable_edited_is_data_url (env : Env) (p : Page) :
  reachable env p -> forall x, editedImage (ui p) = Some x -> is_data_url x.
Proof.
  induction 1 as [|p e _ IH].
  - discriminate.
  - apply step_edited_is_data_url. exact IH.
Qed.

(** X12: In every reachable state the edited image, when there is one, is a data
    URL built from a result of the client, and so is the link of every
    download offered so far. *)
Theorem edited_image_and_downloads_are_data_urls (env : Env) (p : Page) :
  reachable env p ->
  (forall x, editedImage (ui p) = Some x -> is_data_url x)
  /\ Forall (fun d => is_data_url (href d)) (downloads p).
Proof.
  intros Hr. split; [apply (reachable_edited_is_data_url env p Hr)|].
  induction Hr as [|p e Hr IHd]; [constructor|].
  destruct (step_downloads env p e) as [-> | (d & Hd & _ & ->)]; [exact IHd|].
  apply Forall_app. split; [exact IHd|]. constructor; [|constructor].
  apply (reachable_edited_is_data_url env p Hr). apply (download_click_href _ _ Hd).
Qed.

Lemma data_urls_witness :
  Forall (fun d => is_data_url (href d))
         (downloads (run (env_serving "SEFU") start
                       (cat_session ++ [DownloadClick])%list)).
Proof.
  apply (edited_image_and_downloads_are_data_urls (env_serving "SEFU")).
  apply reachable_run. apply reachable_start.
Defined.

(** X13: In every reachable state an edited image that is shown can be
    downloaded: the download button is enabled, and a click offers that
    image under the name derived from the file held. *)
Theorem shown_result_is_downloadable (env : Env) (p : Page) (x : string) :
  reachable env p ->
  editedImage (ui p) = Some x ->
  download_disabled (ui p) = false
  /\ downloads (step env p DownloadClick)
     = (downloads p ++ [ {| href := x;
                            download := downloadFileName (originalFile (ui p)) |} ])%list.
Proof.
  intros Hr Hx.
  pose proof (reachable_no_result_while_loading env p Hr) as Hl.
  pose proof (reachable_edited_is_data_url env p Hr) as Hu.
  pose proof (truthy_nonempty x (is_data_url_nonempty x (Hu x Hx))) as Ht.
  assert (Hd : download_disabled (ui p) = false).
  { unfold download_disabled. rewrite Hx, Ht.
    destruct (isLoading (ui p)) eqn:El; [|reflexivity].
    rewrite (Hl El) in Hx. discriminate. }
  split; [exact Hd|].
  simpl. rewrite Hd. unfold handleDownloadClick. rewrite Hx, Ht. reflexivity.
Qed.

Lemma shown_result_witness :
  download_disabled (ui (run (env_serving "SEFU") start cat_session)) = false.
Proof.
  apply (shown_result_is_downloadable (env_serving "SEFU")
           (run (env_serving "SEFU") start cat_session)
           "data:image/png;base64,SEFU").
  - apply reachable_run. apply reachable_start.
  - reflexivity.
Defined.

(** ** Completion of the call in flight *)

(** X14: In every reachable state with a submission in flight, its completion,
    whatever the remote call did, empties the flight list and turns the
    loading flag off; the generate button is then enabled exactly when an
    image is loaded and the prompt is not empty. *)
Theorem completion_unlocks_submission (env : Env) (p : Page)
    (remote : Completion GenerateContentResponse) :
  reachable env p -> in_flight p = true ->
  let p' := step env p (EditSettled 0 remote) in
  edits p' = [] /\ isLoading (ui p') = false
  /\ generate_disabled (ui p')
     = negb (truthy (originalImage (ui p))) || negb (truthy (Some (prompt (ui p)))).
Proof.
  intros Hr Hf. cbv zeta.
  pose proof (reachable_tracks env p Hr) as Ht. unfold loading_tracks_edits in Ht.
  unfold in_flight in Hf.
  destruct (edits p) as [|pending [|x l]] eqn:E; [discriminate | | ].
  - simpl. rewrite E. simpl.
    destruct (client_outcome (awaited pending) remote); simpl;
      unfold generate_disabled; simpl; rewrite orb_false_r; repeat split; reflexivity.
  - destruct (isLoading (ui p)); discriminate.
Qed.

Lemma completion_unlocks_witness :
  let p := run env_no_key start
             [ FileChange (Some [cat_png]); LoadSettled 0 (Resolved cat_url);
               PromptInput "add a hat"; GenerateClick ] in
  generate_disabled (ui (step env_no_key p (EditSettled 0 (Rejected ThrownOther))))
  = false.
Proof.
  cbv zeta.
  destruct (completion_unlocks_submission env_no_key
              (run env_no_key start
                 [ FileChange (Some [cat_png]); LoadSettled 0 (Resolved cat_url);
                   PromptInput "add a hat"; GenerateClick ])
              (Rejected ThrownOther)) as (_ & _ & H).
  - apply reachable_run. apply reachable_start.
  - reflexivity.
  - rewrite H. reflexivity.
Defined.

(** ** A result that arrives after the source changed *)

(** X15: When the image is cleared while a submission is in flight and the client
    then resolves, the result is shown although no source image is loaded,
    and its download gets the default name. *)
Theorem result_after_clear_is_shown (env : Env) (p : Page) (pending : PendingEdit)
    (remote : Completion GenerateContentResponse) (D : string) :
  edits p = [pending] ->
  truthy (originalImage (ui p)) = true ->
  client_outcome (awaited pending) remote = Resolved D ->
  let p' := step env (step env p ClearClick) (EditSettled 0 remote) in
  let url := "data:" ++ type (closure_file pending) ++ ";base64," ++ D in
  originalImage (ui p') = None /\ originalFile (ui p') = None
  /\ editedImage (ui p') = Some url
  /\ isLoading (ui p') = false
  /\ handleDownloadClick (ui p')
     = Some {| href := url; download := DEFAULT_DOWNLOAD |}.
Proof.
  intros He Hi Ho. cbv zeta. simpl. rewrite Hi. simpl. rewrite He. simpl.
  rewrite Ho. simpl. repeat split; reflexivity.
Qed.

Lemma result_after_clear_witness :
  let p := run (env_serving "SEFU") start
             [ FileChange (Some [cat_png]); LoadSettled 0 (Resolved cat_url);
               PromptInput "add a hat"; GenerateClick; ClearClick;
               EditSettled 0 (Resolved (image_response "SEFU")) ] in
  originalImage (ui p) = None
  /\ editedImage (ui p) = Some "data:image/png;base64,SEFU".
Proof.
  cbv zeta.
  pose (p0 := run (env_serving "SEFU") start
                [ FileChange (Some [cat_png]); LoadSettled 0 (Resolved cat_url);
                  PromptInput "add a hat"; GenerateClick ]).
  destruct (result_after_clear_is_shown (env_serving "SEFU") p0
              {| closure_file := cat_png;
                 awaited := build_request (env_serving "SEFU") (Some "Q0FU")
                                          "image/png" "add a hat" |}
              (Resolved (image_response "SEFU")) "SEFU")
    as (H1 & _ & H3 & _).
  - reflexivity.
  - reflexivity.
  - reflexivity.
  - split; [exact H1 | exact H3].
Defined.

(** X16: When another file is loaded while a submission is in flight and the
    client then resolves, the new image is the source and the result shown
    beside it is the one of the earlier submission, under the media type of
    the file that submission closed over. *)
Theorem result_after_replacing_image (env : Env) (p : Page) (pending : PendingEdit)
    (remote : Completion GenerateContentResponse) (D : string)
    (file2 : File) (url2 : string) :
  edits p = [pending] -> loads p = [] ->
  client_outcome (awaited pending) remote = Resolved D ->
  let p' := run env p [ FileChange (Some [file2]); LoadSettled 0 (Resolved url2);
                        EditSettled 0 remote ] in
  originalImage (ui p') = Some url2 /\ originalFile (ui p') = Some file2
  /\ editedImage (ui p')
     = Some ("data:" ++ type (closure_file pending) ++ ";base64," ++ D).
Proof.
  intros He Hl Ho. cbv zeta. unfold run. simpl. rewrite Hl. simpl. rewrite He. simpl.
  rewrite Ho. simpl. repeat split; reflexivity.
Qed.

Lemma result_after_replacing_witness :
  let p := run (env_serving "SEFU") start
             [ FileChange (Some [cat_png]); LoadSettled 0 (Resolved cat_url);
               PromptInput "add a hat"; GenerateClick;
               FileChange (Some [ {| name := "dog.webp"; type := "image/webp" |} ]);
               LoadSettled 0 (Resolved "data:image/webp;base64,RE9H");
               EditSettled 0 (Resolved (image_response "SEFU")) ] in
  originalImage (ui p) = Some "data:image/webp;base64,RE9H"
  /\ editedImage (ui p) = Some "data:image/png;base64,SEFU".
Proof.
  cbv zeta.
  pose (p0 := run (env_serving "SEFU") start
                [ FileChange (Some [cat_png]); LoadSettled 0 (Resolved cat_url);
                  PromptInput "add a hat"; GenerateClick ]).
  destruct (result_after_replacing_image (env_serving "SEFU") p0
              {| closure_file := cat_png;
                 awaited := build_request (env_serving "SEFU") (Some "Q0FU")
                                          "image/png" "add a hat" |}
              (Resolved (image_response "SEFU")) "SEFU"
              {| name := "dog.webp"; type := "image/webp" |}
              "data:image/webp;base64,RE9H")
    as (H1 & _ & H3).
  - reflexivity.
  - reflexivity.
  - reflexivity.
  - split; [exact H1 | exact H3].
Defined.

(** ** Download names without an extension *)

Lemma ext_matches_needs_dot (c : ascii) (rest : string) :
  Ascii.eqb c "." = false -> ext_matches_here (String c rest) = false.
Proof.
  intros Hc. unfold ext_matches_here.
  destruct c as [[] [] [] [] [] [] [] []]; try reflexivity. discriminate.
Qed.

Lemma replace_extension_no_dot (name : string) :
  no_dot name = true -> replace_extension name = name.
Proof.
  induction name as [|c name IH]; [reflexivity|].
  simpl no_dot. intros H. apply andb_prop in H as [Hc Hn].
  apply negb_true_iff in Hc.
  rewrite replace_extension_eq, (ext_matches_needs_dot c name Hc), (IH Hn).
  reflexivity.
Qed.

(** X17: For a file whose name is not empty and has no dot, the download is
    offered under that name as it is: no ["_edited"] is inserted. *)
Theorem name_without_dot_is_kept (file : File) :
  name file <> "" -> no_dot (name file) = true ->
  downloadFileName (Some file) = name file.
Proof.
  intros Hne Hd. unfold downloadFileName.
  rewrite (replace_extension_no_dot _ Hd), (truthy_nonempty _ Hne). reflexivity.
Qed.

Lemma name_without_dot_witness :
  downloadFileName (Some {| name := "cat"; type := "image/png" |}) = "cat".
Proof.
  apply (name_without_dot_is_kept {| name := "cat"; type := "image/png" |}).
  - discriminate.
  - reflexivity.
Defined.

(** X18: The name after the replacement is the name itself, when no suffix of it
    is a dot followed by letters, digits, [_] or [-] only; otherwise it is
    the name with ["_edited"] put in before such a suffix.  No character of
    the name is dropped or changed. *)
Theorem replace_extension_shape (name : string) :
  (replace_extension name = name
   /\ forall a b, name = a ++ b -> ext_matches_here b = false)
  \/ (exists base ext,
        name = base ++ ext /\ ext_matches_here ext = true
        /\ replace_extension name = base ++ "_edited" ++ ext).
Proof.
  induction name as [|c name IH].
  - left. split; [reflexivity|].
    intros a b H. destruct a; [|discriminate]. simpl in H. subst b. reflexivity.
  - rewrite replace_extension_eq.
    destruct (ext_matches_here (String c name)) eqn:Em.
    + right. exists "", (String c name). repeat split; auto.
    + destruct IH as [[Hk Hn] | (base & ext & Hs & Hm & Hr)].
      * left. rewrite Hk. split; [reflexivity|].
        intros a b H. destruct a as [|c' a]; simpl in H.
        -- subst b. exact Em.
        -- inversion H. apply (Hn a b). assumption.
      * right. exists (String c base), ext. rewrite Hr, Hs.
        repeat split; auto.
Qed.

(** ** What is on the screen *)

Lemma start_error (s : State) :
  error (fst (handleGenerateClick_start s)) = None
  \/ error (fst (handleGenerateClick_start s)) = Some MSG_NEED_INPUT.
Proof.
  unfold handleGenerateClick_start.
  destruct (originalImage s) as [img|];
    [destruct (originalFile s) as [file|]|];
    [destruct (negb (truthy (Some img)) || negb (truthy (Some (prompt s)))) | | ];
    simpl; auto.
Qed.

(** X19: In every reachable state the alert shows the error whenever there is
    one: no handler stores an empty message, which the JSX would hide. *)
Theorem alert_shows_every_error (env : Env) (p : Page) :
  reachable env p ->
  Render.alert (Render.render (ui p)) = error (ui p).
Proof.
  intros Hr.
  assert (H : error (ui p) = None \/ truthy (error (ui p)) = true).
  { induction Hr as [|p e _ IH]; [left; reflexivity|].
    destruct (step_ui env p e)
      as [-> | [(b & ->) | [(file & loaded & ->) | [(value & _ & ->)
         | [(_ & ->) | [(pending & result & _ & ->) | (_ & ->)]]]]]];
      try exact IH.
    - destruct loaded; [left | right]; reflexivity.
    - destruct (start_error (ui p)) as [-> | ->]; [left | right]; reflexivity.
    - destruct result as [D|[message|]]; [exact IH | right | right]; reflexivity.
    - left. reflexivity. }
  unfold Render.render. simpl.
  destruct H as [-> | ->]; reflexivity.
Qed.

Lemma alert_witness :
  Render.alert
    (Render.render
       (ui (run env_no_key start
              [ FileChange (Some [cat_png]); LoadSettled 0 (Rejected ThrownOther) ])))
  = Some MSG_LOAD_FAILED.
Proof.
  apply (alert_shows_every_error env_no_key
           (run env_no_key start
              [ FileChange (Some [cat_png]); LoadSettled 0 (Rejected ThrownOther) ])).
  apply reachable_run. apply reachable_start.
Defined.

(** X20: In every reachable state the spinner is on the edited panel exactly
    while a submission is in flight, and never on the source panel; under
    the spinner the edited panel shows its placeholder and not an image, and
    the prompt, the generate button and the download button are disabled.
    The clear button is on the source panel exactly when an image is loaded,
    and never on the edited panel. *)
Theorem spinner_covers_placeholder (env : Env) (p : Page) :
  reachable env p ->
  let v := Render.render (ui p) in
  Render.spinner (Render.editedPanel v) = in_flight p
  /\ Render.spinner (Render.originalPanel v) = false
  /\ (in_flight p = true ->
      Render.body (Render.editedPanel v) = Render.Placeholder Render.LABEL_RESULT
      /\ Render.promptDisabled v = true
      /\ Render.generateDisabled v = true
      /\ Render.downloadDisabled v = true)
  /\ Render.clearButton (Render.originalPanel v)
     = (if truthy (originalImage (ui p)) then Some Render.ActClearImage else None)
  /\ Render.clearButton (Render.editedPanel v) = None.
Proof.
  intros Hr. cbv zeta.
  pose proof (reachable_tracks env p Hr) as Ht. unfold loading_tracks_edits in Ht.
  pose proof (reachable_no_result_while_loading env p Hr) as Hn.
  assert (Hl : isLoading (ui p) = in_flight p).
  { unfold in_flight. destruct (isLoading (ui p)), (edits p); try discriminate; reflexivity. }
  split; [exact Hl|]. split; [reflexivity|]. split; [|split; reflexivity].
  intros Hf. rewrite <- Hl in Hf.
  unfold Render.render, Render.ImageContainer, prompt_disabled, generate_disabled,
    download_disabled. simpl.
  rewrite (Hn Hf), Hf. rewrite !orb_true_r. repeat split; reflexivity.
Qed.

Lemma spinner_witness :
  let p := run env_no_key start
             [ FileChange (Some [cat_png]); LoadSettled 0 (Resolved cat_url);
               PromptInput "add a hat"; GenerateClick ] in
  Render.spinner (Render.editedPanel (Render.render (ui p))) = true.
Proof.
  cbv zeta.
  destruct (spinner_covers_placeholder env_no_key
              (run env_no_key start
                 [ FileChange (Some [cat_png]); LoadSettled 0 (Resolved cat_url);
                   PromptInput "add a hat"; GenerateClick ])) as (H & _).
  - apply reachable_run. apply reachable_start.
  - rewrite H. reflexivity.
Defined.

(** ** A whole session *)

(** X21: From the initial page: picking a file whose read gives a non-empty
    text, typing a non-empty prompt, clicking generate, a remote reply from
    which the client extracts [D], and clicking download, make one client
    call and, with the credential present, one remote call, both with the
    payload of the loaded text, the file's media type and the prompt, and
    offer one download: the data URL of [D] under the name derived from the
    file.  Nothing is left in flight and no error is shown. *)
Theorem session_from_start (env : Env) (file : File) (url instruction : string)
    (remote : Completion GenerateContentResponse) (D : string) :
  truthy (API_KEY env) = true ->
  url <> "" -> instruction <> "" ->
  after_await remote = Resolved D ->
  let p := run env start
             [ FileChange (Some [file]); LoadSettled 0 (Resolved url);
               PromptInput instruction; GenerateClick;
               EditSettled 0 remote; DownloadClick ] in
  client_log p = [ {| call_data := base64Data url; call_mimeType := type file;
                      call_prompt := instruction |} ]
  /\ map request_values (remote_log p) = [ (base64Data url, type file, instruction) ]
  /\ downloads p = [ {| href := "data:" ++ type file ++ ";base64," ++ D;
                        download := downloadFileName (Some file) |} ]
  /\ edits p = [] /\ loads p = []
  /\ isLoading (ui p) = false /\ error (ui p) = None.
Proof.
  intros Hkey Hu Hi Ha. cbv zeta.
  pose proof (truthy_nonempty _ Hu) as Htu.
  pose proof (truthy_nonempty _ Hi) as Hti.
  unfold run. cbn [fold_left].
  set (s2 := handleImageUpload_settled file (Resolved url) initial).
  set (s3 := setPrompt instruction s2).
  assert (E2 : step env (step env start (FileChange (Some [file])))
                    (LoadSettled 0 (Resolved url))
               = mkPage s2 [] [] [] [] []) by reflexivity.
  rewrite E2. clear E2.
  assert (E3 : step env (mkPage s2 [] [] [] [] []) (PromptInput instruction)
               = mkPage s3 [] [] [] [] []).
  { cbn [step ui]. unfold prompt_disabled.
    change (originalImage s2) with (Some url). rewrite Htu. reflexivity. }
  rewrite E3. clear E3.
  assert (Hs : handleGenerateClick_start s3
               = (setError None (setEditedImage None (setIsLoading true s3)),
                  Some (file, {| call_data := base64Data url;
                                 call_mimeType := type file;
                                 call_prompt := instruction |}))).
  { rewrite (start_guard_passes s3 url file);
      [reflexivity | reflexivity | reflexivity | exact Hu | exact Hi]. }
  set (s4 := setError None (setEditedImage None (setIsLoading true s3))) in Hs.
  assert (E4 : step env (mkPage s3 [] [] [] [] []) GenerateClick
               = mkPage s4 []
                   [ {| closure_file := file;
                        awaited := build_request env (base64Data url) (type file)
                                                 instruction |} ]
                   [ {| call_data := base64Data url; call_mimeType := type file;
                        call_prompt := instruction |} ]
                   (match build_request env (base64Data url) (type file) instruction with
                    | Resolved r => [r]
                    | Rejected _ => []
                    end)
                   []).
  { cbn [step ui]. unfold generate_disabled.
    change (originalImage s3) with (Some url).
    change (prompt s3) with instruction.
    rewrite Htu, Hti. cbn [negb orb]. change (isLoading s3) with false. cbv iota.
    unfold submit. cbn [ui]. rewrite Hs. reflexivity. }
  rewrite E4. clear E4.
  rewrite (build_request_with_key _ _ _ _ Hkey).
  cbn [step edits nth_error awaited closure_file client_outcome ui].
  rewrite Ha.
  cbn. repeat split; reflexivity.
Qed.

Lemma session_from_start_witness :
  downloads (run (env_serving "SEFU") start (cat_session ++ [DownloadClick])%list)
  = [ {| href := "data:image/png;base64,SEFU"; download := "cat_edited.png" |} ].
Proof.
  apply (session_from_start (env_serving "SEFU") cat_png cat_url "add a hat"
           (Resolved (image_response "SEFU")) "SEFU").
  - reflexivity.
  - discriminate.
  - discriminate.
  - reflexivity.
Defined.

(** ** A completion that arrives after other events *)

(** X22: In every reachable state, the completion of a suspended submission
    turns the loading flag off and keeps the source image, the file and the
    prompt.  When the client resolved, the edited image is the data URL of
    its result under the media type of the file the submission closed over,
    and the error is left as it was; when the client rejected, the error is
    set and no edited image is shown. *)
Theorem late_completion_sets_result_or_error (env : Env) (p : Page) (n : nat)
    (pending : PendingEdit) (remote : Completion GenerateContentResponse) :
  reachable env p ->
  nth_error (edits p) n = Some pending ->
  let s' := ui (step env p (EditSettled n remote)) in
  isLoading s' = false
  /\ originalImage s' = originalImage (ui p)
  /\ originalFile s' = originalFile (ui p)
  /\ prompt s' = prompt (ui p)
  /\ match client_outcome (awaited pending) remote with
     | Resolved D =>
         editedImage s' = Some ("data:" ++ type (closure_file pending) ++ ";base64," ++ D)
         /\ error s' = error (ui p)
     | Rejected err =>
         editedImage s' = None /\ truthy (error s') = true
     end.
Proof.
  intros Hr Hn. cbv zeta.
  destruct (client_outcome (awaited pending) remote) as [D|err] eqn:Eo.
  - pose proof (page_edit_resolved env p n pending remote D Hn Eo) as He.
    simpl in *. rewrite Hn in *. simpl in *. rewrite Eo in *.
    repeat split; try reflexivity; try exact He.
  - destruct (page_edit_rejected env p n pending remote err Hr Hn Eo) as (H1 & H2 & _).
    simpl in *. rewrite Hn in *. simpl in *. rewrite Eo in *.
    repeat split; try reflexivity; try assumption.
Qed.

Lemma late_completion_witness :
  let p := run (env_serving "SEFU") start (cat_session ++ [GenerateClick])%list in
  editedImage (ui (step (env_serving "SEFU") p
                     (EditSettled 0 (Rejected (ThrownError "quota exceeded")))))
  = None.
Proof.
  cbv zeta.
  destruct (late_completion_sets_result_or_error (env_serving "SEFU")
              (run (env_serving "SEFU") start (cat_session ++ [GenerateClick])%list)
              0
              {| closure_file := cat_png;
                 awaited := build_request (env_serving "SEFU") (Some "Q0FU")
                                          "image/png" "add a hat" |}
              (Rejected (ThrownError "quota exceeded")))
    as (_ & _ & _ & _ & H).
  - apply reachable_run. apply reachable_start.
  - reflexivity.
  - exact (proj1 H).
Defined.
